(** * FeatureEngine: pose features, angles, velocity, stability, visibility

    A shallow embedding of [src/features/FeatureEngine.ts].  JavaScript
    numbers are modelled by the real numbers [R]: arithmetic is exact, and
    the special values of IEEE doubles (NaN, the infinities, signed zero)
    as well as rounding are outside the model.  The wall clock [Date.now()]
    is an explicit argument of the functions that read it. *)

From Stdlib Require Import Reals Lra Lia List Bool.
From Stdlib Require Import Btauto.
From Stdlib Require String.
Import ListNotations.
Open Scope R_scope.

(** ** Numeric primitives *)

Module Num.

(** [a >= b], [a > b] and [a === b] of the source, as booleans. *)
Definition geb (a b : R) : bool := if Rle_dec b a then true else false.
Definition gtb (a b : R) : bool := if Rlt_dec b a then true else false.
Definition leb (a b : R) : bool := if Rle_dec a b then true else false.
Definition eqb (a b : R) : bool := if Req_dec_T a b then true else false.

(** [Math.abs], [Math.max], [Math.min], [Math.sqrt], [Math.acos]. *)
Definition Math_abs (a : R) : R := Rabs a.
Definition Math_max (a b : R) : R := Rmax a b.
Definition Math_min (a b : R) : R := Rmin a b.
Definition Math_max3 (a b c : R) : R := Rmax (Rmax a b) c.
Definition Math_sqrt (a : R) : R := sqrt a.
Definition Math_acos (a : R) : R := acos a.

(** [a || 0] on a number: [a] when it is truthy (not zero), else 0. *)
Definition or_zero (a : R) : R := if eqb a 0 then 0 else a.

(** [Math.atan2 y x]: the angle of the point [(x, y)], in (-PI, PI]. *)
Definition Math_atan2 (y x : R) : R :=
  if Rlt_dec 0 x then atan (y / x)
  else if Rlt_dec x 0 then
         (if Rle_dec 0 y then atan (y / x) + PI else atan (y / x) - PI)
       else if Rlt_dec 0 y then PI / 2
            else if Rlt_dec y 0 then - (PI / 2)
                 else 0.

End Num.
Import Num.

(** ** Data model ([src/types/index.ts]) *)

Inductive KeypointName : Type :=
| nose | left_eye | right_eye | left_ear | right_ear
| left_shoulder | right_shoulder | left_elbow | right_elbow
| left_wrist | right_wrist
| left_hip | right_hip
| left_knee | right_knee | left_ankle | right_ankle
| left_heel | right_heel | left_toe | right_toe.

(** The keys of a [Record<KeypointName, Keypoint>], in declaration order. *)
Definition all_keypoint_names : list KeypointName :=
  [ nose; left_eye; right_eye; left_ear; right_ear;
    left_shoulder; right_shoulder; left_elbow; right_elbow;
    left_wrist; right_wrist;
    left_hip; right_hip;
    left_knee; right_knee; left_ankle; right_ankle;
    left_heel; right_heel; left_toe; right_toe ].

Inductive Visibility : Type := visible | occluded | not_visible.

Record Keypoint : Type := mkKeypoint {
  x : R;
  y : R;
  confidence : R;
  visibility : option Visibility
}.

(** A well-typed [Record<KeypointName, Keypoint>] has every key. *)
Definition Keypoints : Type := KeypointName -> Keypoint.

Record Pose : Type := mkPose {
  keypoints : Keypoints;
  pose_timestamp : R;
  pose_frameId : String.string;
  visibilityScore : R
}.

Record Angles : Type := mkAngles {
  leftHip : R; rightHip : R;
  leftKnee : R; rightKnee : R;
  leftShoulder : R; rightShoulder : R;
  leftElbow : R; rightElbow : R;
  neck : R
}.

Record Positions : Type := mkPositions {
  hipHeight : R;
  shoulderHeight : R;
  headHeight : R;
  leftAnkleHeight : R;
  rightAnkleHeight : R
}.

Record Velocity : Type := mkVelocity {
  v_bodyLineAngle : R;
  v_hipHeight : R;
  v_shoulderHeight : R
}.

Record Stability : Type := mkStability {
  isStable : bool;
  stabilityScore : R;
  motionGate : bool
}.

Record CriticalPoints : Type := mkCriticalPoints {
  shoulders : R;
  hips : R;
  ankles : R
}.

Record VisibilityVerdict : Type := mkVisibilityVerdict {
  overall : R;
  criticalPoints : CriticalPoints;
  hasMinimumVisibility : bool
}.

Record Features : Type := mkFeatures {
  bodyLineAngle : R;
  bodyLineConfidence : R;
  angles : Angles;
  positions : Positions;
  velocity : Velocity;
  stability : Stability;
  visibility_verdict : VisibilityVerdict;
  timestamp : R;
  frameId : String.string
}.

Inductive AngleCalculationMethod : Type := m_atan2 | m_acos | m_asin.

Record FeatureConfig : Type := mkFeatureConfig {
  cfg_smoothingFactor : R;
  stabilityWindowMs : R;
  motionThreshold : R;
  angleCalculationMethod : AngleCalculationMethod
}.

(** [Partial<FeatureConfig>]: each property may be absent. *)
Record PartialFeatureConfig : Type := mkPartialFeatureConfig {
  p_smoothingFactor : option R;
  p_stabilityWindowMs : option R;
  p_motionThreshold : option R;
  p_angleCalculationMethod : option AngleCalculationMethod
}.

Definition empty_partial : PartialFeatureConfig :=
  mkPartialFeatureConfig None None None None.

(** The object spread [{ ...base, ...over }]. *)
Definition spread_config (base : FeatureConfig) (over : PartialFeatureConfig)
  : FeatureConfig :=
  let pick {A} (o : option A) (d : A) := match o with Some v => v | None => d end in
  mkFeatureConfig
    (pick (p_smoothingFactor over) (cfg_smoothingFactor base))
    (pick (p_stabilityWindowMs over) (stabilityWindowMs base))
    (pick (p_motionThreshold over) (motionThreshold base))
    (pick (p_angleCalculationMethod over) (angleCalculationMethod base)).

(** The private fields of the [FeatureEngine] class. *)
Record FeatureEngine : Type := mkFeatureEngine {
  config : FeatureConfig;
  previousFeatures : option Features;
  smoothingFactor : R
}.

Definition default_config : FeatureConfig :=
  mkFeatureConfig (1 / 10) 1000 5 m_atan2.

Definition constructor (cfg : option PartialFeatureConfig) : FeatureEngine :=
  let c := spread_config default_config
             (match cfg with Some p => p | None => empty_partial end) in
  mkFeatureEngine c None (cfg_smoothingFactor c).

Definition updateConfig (e : FeatureEngine) (newConfig : PartialFeatureConfig)
  : FeatureEngine :=
  let c := spread_config (config e) newConfig in
  mkFeatureEngine c (previousFeatures e) (cfg_smoothingFactor c).

Definition getConfig (e : FeatureEngine) : FeatureConfig := config e.

Definition reset (e : FeatureEngine) : FeatureEngine :=
  mkFeatureEngine (config e) None (smoothingFactor e).

(** ** Geometry helpers *)

Inductive Side : Type := Left | Right.

(** The template literals [`${side}_hip`] and so on. *)
Definition hip_of (s : Side) : KeypointName :=
  match s with Left => left_hip | Right => right_hip end.
Definition knee_of (s : Side) : KeypointName :=
  match s with Left => left_knee | Right => right_knee end.
Definition ankle_of (s : Side) : KeypointName :=
  match s with Left => left_ankle | Right => right_ankle end.
Definition shoulder_of (s : Side) : KeypointName :=
  match s with Left => left_shoulder | Right => right_shoulder end.
Definition elbow_of (s : Side) : KeypointName :=
  match s with Left => left_elbow | Right => right_elbow end.
Definition wrist_of (s : Side) : KeypointName :=
  match s with Left => left_wrist | Right => right_wrist end.

Record Vec2 : Type := mkVec2 { vx : R; vy : R }.

(** The visibility threshold, the literal [0.6] of the source. *)
Definition VISIBILITY_THRESHOLD : R := 6 / 10.

Definition is_visible (kp : Keypoint) : bool :=
  geb (confidence kp) VISIBILITY_THRESHOLD.

Definition calculateAngleBetweenVectors (v1 v2 : Vec2) : R :=
  let dot := vx v1 * vx v2 + vy v1 * vy v2 in
  let mag1 := Math_sqrt (vx v1 * vx v1 + vy v1 * vy v1) in
  let mag2 := Math_sqrt (vx v2 * vx v2 + vy v2 * vy v2) in
  if eqb mag1 0 || eqb mag2 0 then 0
  else
    let cosAngle := dot / (mag1 * mag2) in
    let angle := Math_acos (Math_max (-1) (Math_min 1 cosAngle)) in
    angle * (180 / PI).

(** [keypoints.every(kp => kp.confidence >= 0.6)] *)
Definition areKeypointsVisible (kps : list Keypoint) : bool :=
  forallb is_visible kps.

Definition averageY (kps : list Keypoint) : R :=
  let visible := filter is_visible kps in
  if Nat.eqb (length visible) 0 then 0
  else
    let sum := fold_left (fun acc kp => acc + y kp) visible 0 in
    sum / INR (length visible).

(** ** Joint angles *)

Definition calculateHipAngle (keypoints : Keypoints) (side : Side) : R :=
  let hip := keypoints (hip_of side) in
  let knee := keypoints (knee_of side) in
  let ankle := keypoints (ankle_of side) in
  if negb (areKeypointsVisible [hip; knee; ankle]) then 0
  else calculateAngleBetweenVectors
         (mkVec2 (x hip - x knee) (y hip - y knee))
         (mkVec2 (x ankle - x knee) (y ankle - y knee)).

Definition calculateKneeAngle (keypoints : Keypoints) (side : Side) : R :=
  let hip := keypoints (hip_of side) in
  let knee := keypoints (knee_of side) in
  let ankle := keypoints (ankle_of side) in
  if negb (areKeypointsVisible [hip; knee; ankle]) then 0
  else calculateAngleBetweenVectors
         (mkVec2 (x knee - x hip) (y knee - y hip))
         (mkVec2 (x knee - x ankle) (y knee - y ankle)).

Definition calculateShoulderAngle (keypoints : Keypoints) (side : Side) : R :=
  let hip := keypoints (hip_of side) in
  let shoulder := keypoints (shoulder_of side) in
  let elbow := keypoints (elbow_of side) in
  if negb (areKeypointsVisible [hip; shoulder; elbow]) then 0
  else calculateAngleBetweenVectors
         (mkVec2 (x shoulder - x hip) (y shoulder - y hip))
         (mkVec2 (x shoulder - x elbow) (y shoulder - y elbow)).

Definition calculateElbowAngle (keypoints : Keypoints) (side : Side) : R :=
  let shoulder := keypoints (shoulder_of side) in
  let elbow := keypoints (elbow_of side) in
  let wrist := keypoints (wrist_of side) in
  if negb (areKeypointsVisible [shoulder; elbow; wrist]) then 0
  else calculateAngleBetweenVectors
         (mkVec2 (x elbow - x shoulder) (y elbow - y shoulder))
         (mkVec2 (x elbow - x wrist) (y elbow - y wrist)).

(** The higher-confidence keypoint of a left/right pair; the right one on
    a tie. *)
Definition better (l r : Keypoint) : Keypoint :=
  if gtb (confidence l) (confidence r) then l else r.

Definition neck_ear (keypoints : Keypoints) : Keypoint :=
  better (keypoints left_ear) (keypoints right_ear).
Definition neck_shoulder (keypoints : Keypoints) : Keypoint :=
  better (keypoints left_shoulder) (keypoints right_shoulder).
Definition neck_hip (keypoints : Keypoints) : Keypoint :=
  better (keypoints left_hip) (keypoints right_hip).

Definition calculateNeckAngle (keypoints : Keypoints) : R :=
  let ear := neck_ear keypoints in
  let shoulder := neck_shoulder keypoints in
  let hip := neck_hip keypoints in
  if negb (areKeypointsVisible [ear; shoulder; hip]) then 0
  else calculateAngleBetweenVectors
         (mkVec2 (x shoulder - x ear) (y shoulder - y ear))
         (mkVec2 (x shoulder - x hip) (y shoulder - y hip)).

Definition calculateJointAngles (keypoints : Keypoints) : Angles :=
  mkAngles
    (calculateHipAngle keypoints Left)
    (calculateHipAngle keypoints Right)
    (calculateKneeAngle keypoints Left)
    (calculateKneeAngle keypoints Right)
    (calculateShoulderAngle keypoints Left)
    (calculateShoulderAngle keypoints Right)
    (calculateElbowAngle keypoints Left)
    (calculateElbowAngle keypoints Right)
    (calculateNeckAngle keypoints).

(** ** Body line *)

Record BodyLine : Type := mkBodyLine { bl_angle : R; bl_confidence : R }.

Definition calculateBodyLineForSide (keypoints : Keypoints) (side : Side)
  : BodyLine :=
  let shoulder := keypoints (shoulder_of side) in
  let hip := keypoints (hip_of side) in
  let ankle := keypoints (ankle_of side) in
  if negb (areKeypointsVisible [shoulder; hip; ankle]) then mkBodyLine 0 0
  else
    let dx := x ankle - x shoulder in
    let dy := y ankle - y shoulder in
    let angle := Math_atan2 dx dy * (180 / PI) in
    let confidence :=
      (confidence shoulder + confidence hip + confidence ankle) / 3 in
    mkBodyLine angle confidence.

Definition calculateBodyLineStraightness (keypoints : Keypoints) : BodyLine :=
  let leftSide := calculateBodyLineForSide keypoints Left in
  let rightSide := calculateBodyLineForSide keypoints Right in
  if gtb (bl_confidence leftSide) (bl_confidence rightSide) then leftSide
  else rightSide.

(** ** Positions *)

Definition calculateBodyPositions (keypoints : Keypoints) : Positions :=
  let leftHip := keypoints left_hip in
  let rightHip := keypoints right_hip in
  let leftShoulder := keypoints left_shoulder in
  let rightShoulder := keypoints right_shoulder in
  let leftAnkle := keypoints left_ankle in
  let rightAnkle := keypoints right_ankle in
  let hipHeight := averageY [leftHip; rightHip] in
  let shoulderHeight := averageY [leftShoulder; rightShoulder] in
  let leftAnkleHeight :=
    if geb (confidence leftAnkle) (6 / 10) then y leftAnkle else 0 in
  let rightAnkleHeight :=
    if geb (confidence rightAnkle) (6 / 10) then y rightAnkle else 0 in
  let leftEar := keypoints left_ear in
  let rightEar := keypoints right_ear in
  let headHeight := averageY [leftEar; rightEar] in
  mkPositions hipHeight shoulderHeight headHeight
              leftAnkleHeight rightAnkleHeight.

(** ** Velocity, stability, visibility *)

Definition zero_velocity : Velocity := mkVelocity 0 0 0.

(** [now] is the value of [Date.now()] read by this call. *)
Definition calculateVelocities (e : FeatureEngine) (now : R)
    (curAngles : Angles) (curPositions : Positions) (curBodyLineAngle : R)
  : Velocity :=
  match previousFeatures e with
  | None => zero_velocity
  | Some prev =>
      let timeDiff := (now - timestamp prev) / 1000 in
      if leb timeDiff 0 then zero_velocity
      else
        mkVelocity
          ((curBodyLineAngle - bodyLineAngle prev) / timeDiff)
          ((hipHeight curPositions - hipHeight (positions prev)) / timeDiff)
          ((shoulderHeight curPositions - shoulderHeight (positions prev))
             / timeDiff)
  end.

Definition calculateStability (e : FeatureEngine) (velocity : Velocity)
  : Stability :=
  let isMoving :=
    gtb (Math_abs (v_bodyLineAngle velocity)) (motionThreshold (config e))
    || gtb (Math_abs (v_hipHeight velocity)) (motionThreshold (config e))
    || gtb (Math_abs (v_shoulderHeight velocity)) (motionThreshold (config e)) in
  let maxVelocity :=
    Math_max3 (Math_abs (v_bodyLineAngle velocity))
              (Math_abs (v_hipHeight velocity))
              (Math_abs (v_shoulderHeight velocity)) in
  let stabilityScore :=
    Math_max 0 (1 - maxVelocity / (motionThreshold (config e) * 2)) in
  mkStability (negb isMoving) stabilityScore isMoving.

Definition calculateVisibility (keypoints : Keypoints) : VisibilityVerdict :=
  let keypointNames := all_keypoint_names in
  let visibleKeypoints :=
    filter (fun name => geb (confidence (keypoints name)) (6 / 10))
           keypointNames in
  let overall := INR (length visibleKeypoints) / INR (length keypointNames) in
  let criticalPointNames :=
    [left_shoulder; right_shoulder; left_hip; right_hip;
     left_ankle; right_ankle] in
  (* computed by the source and never used *)
  let criticalVisibility :=
    fold_left (fun sum point => sum + or_zero (confidence (keypoints point)))
              criticalPointNames 0
    / INR (length criticalPointNames) in
  mkVisibilityVerdict
    overall
    (mkCriticalPoints
       ((confidence (keypoints left_shoulder)
         + confidence (keypoints right_shoulder)) / 2)
       ((confidence (keypoints left_hip)
         + confidence (keypoints right_hip)) / 2)
       ((confidence (keypoints left_ankle)
         + confidence (keypoints right_ankle)) / 2))
    (geb overall (1 / 2)).

(** ** Smoothing *)

Definition smoothValue (current previous alpha : R) : R :=
  alpha * current + (1 - alpha) * previous.

Definition smoothAngles (cur prev : Angles) (alpha : R) : Angles :=
  mkAngles
    (smoothValue (leftHip cur) (leftHip prev) alpha)
    (smoothValue (rightHip cur) (rightHip prev) alpha)
    (smoothValue (leftKnee cur) (leftKnee prev) alpha)
    (smoothValue (rightKnee cur) (rightKnee prev) alpha)
    (smoothValue (leftShoulder cur) (leftShoulder prev) alpha)
    (smoothValue (rightShoulder cur) (rightShoulder prev) alpha)
    (smoothValue (leftElbow cur) (leftElbow prev) alpha)
    (smoothValue (rightElbow cur) (rightElbow prev) alpha)
    (smoothValue (neck cur) (neck prev) alpha).

(** [applySmoothing] updates [features] in place; the updated object is
    the result here. *)
Definition applySmoothing (e : FeatureEngine) (features : Features)
  : Features :=
  match previousFeatures e with
  | None => features
  | Some prev =>
      let alpha := smoothingFactor e in
      mkFeatures
        (smoothValue (bodyLineAngle features) (bodyLineAngle prev) alpha)
        (bodyLineConfidence features)
        (smoothAngles (angles features) (angles prev) alpha)
        (positions features)
        (velocity features)
        (stability features)
        (visibility_verdict features)
        (timestamp features)
        (frameId features)
  end.

(** ** The entry point *)

(** The [features] object as built before smoothing. *)
Definition rawFeatures (e : FeatureEngine) (now : R) (pose : Pose)
  : Features :=
  let keypoints := keypoints pose in
  let angles := calculateJointAngles keypoints in
  let bodyLineData := calculateBodyLineStraightness keypoints in
  let positions := calculateBodyPositions keypoints in
  let velocity :=
    calculateVelocities e now angles positions (bl_angle bodyLineData) in
  let stability := calculateStability e velocity in
  let visibility := calculateVisibility keypoints in
  mkFeatures (bl_angle bodyLineData) (bl_confidence bodyLineData)
             angles positions velocity stability visibility
             (pose_timestamp pose) (pose_frameId pose).

(** The guard [this.config.smoothingFactor > 0 && this.previousFeatures]. *)
Definition smoothingApplies (e : FeatureEngine) : bool :=
  gtb (cfg_smoothingFactor (config e)) 0
  && match previousFeatures e with Some _ => true | None => false end.

(** The body of the [try] block of [calculateFeatures]: the engine with the
    stored copy of the features, and the features returned as [data]. *)
Definition calculateFeatures (e : FeatureEngine) (now : R) (pose : Pose)
  : FeatureEngine * Features :=
  let features := rawFeatures e now pose in
  let features :=
    if smoothingApplies e then applySmoothing e features else features in
  (mkFeatureEngine (config e) (Some features) (smoothingFactor e), features).

Definition run_frame (e : FeatureEngine) (frame : R * Pose) : FeatureEngine :=
  fst (calculateFeatures e (fst frame) (snd frame)).

(** The engine after a sequence of [calculateFeatures] calls, each with the
    clock value it read. *)
Definition run_frames (e : FeatureEngine) (frames : list (R * Pose))
  : FeatureEngine :=
  fold_left run_frame frames e.

(** ** Run-time behaviour: missing properties and exceptions

    At run time a keypoints object may lack a property; reading it yields
    [undefined], and reading a property of [undefined] throws a
    [TypeError].  This layer models exactly that, so that the [try]/[catch]
    of [calculateFeatures] has something to catch. *)

Module Runtime.

Inductive JsError : Type := TypeError.

Inductive completion (A : Type) : Type :=
| Normal (a : A)
| Throw (err : JsError).
Arguments Normal {A} a.
Arguments Throw {A} err.

Definition ret {A} (a : A) : completion A := Normal a.

Definition bind {A B} (c : completion A) (k : A -> completion B)
  : completion B :=
  match c with
  | Normal a => k a
  | Throw err => Throw err
  end.

Notation "x <- c ;; k" := (bind c (fun x => k))
  (at level 61, c at next level, right associativity).

(** [None] is [undefined]. *)
Definition JsKeypoints : Type := KeypointName -> option Keypoint.

Record JsPose : Type := mkJsPose {
  js_keypoints : JsKeypoints;
  js_timestamp : R;
  js_frameId : String.string;
  js_visibilityScore : R
}.

(** Property access on a value that may be [undefined]. *)
Definition deref (kp : option Keypoint) : completion Keypoint :=
  match kp with
  | Some k => Normal k
  | None => Throw TypeError
  end.

(** [Array.prototype.every] with the callback [kp => kp.confidence >= 0.6]:
    stops at the first element that fails the test. *)
Fixpoint areKeypointsVisible (kps : list (option Keypoint)) : completion bool :=
  match kps with
  | [] => ret true
  | kp :: rest =>
      k <- deref kp ;;
      if geb (confidence k) (6 / 10) then areKeypointsVisible rest
      else ret false
  end.

(** The vector [{ x: a.x - b.x, y: a.y - b.y }]. *)
Definition diff (a b : option Keypoint) : completion Vec2 :=
  ka <- deref a ;;
  kb <- deref b ;;
  ret (mkVec2 (x ka - x kb) (y ka - y kb)).

Definition angleAt (a1 b1 a2 b2 : option Keypoint) : completion R :=
  v1 <- diff a1 b1 ;;
  v2 <- diff a2 b2 ;;
  ret (calculateAngleBetweenVectors v1 v2).

Definition calculateHipAngle (keypoints : JsKeypoints) (side : Side)
  : completion R :=
  let hip := keypoints (hip_of side) in
  let knee := keypoints (knee_of side) in
  let ankle := keypoints (ankle_of side) in
  vis <- areKeypointsVisible [hip; knee; ankle] ;;
  if negb vis then ret 0 else angleAt hip knee ankle knee.

Definition calculateKneeAngle (keypoints : JsKeypoints) (side : Side)
  : completion R :=
  let hip := keypoints (hip_of side) in
  let knee := keypoints (knee_of side) in
  let ankle := keypoints (ankle_of side) in
  vis <- areKeypointsVisible [hip; knee; ankle] ;;
  if negb vis then ret 0 else angleAt knee hip knee ankle.

Definition calculateShoulderAngle (keypoints : JsKeypoints) (side : Side)
  : completion R :=
  let hip := keypoints (hip_of side) in
  let shoulder := keypoints (shoulder_of side) in
  let elbow := keypoints (elbow_of side) in
  vis <- areKeypointsVisible [hip; shoulder; elbow] ;;
  if negb vis then ret 0 else angleAt shoulder hip shoulder elbow.

Definition calculateElbowAngle (keypoints : JsKeypoints) (side : Side)
  : completion R :=
  let shoulder := keypoints (shoulder_of side) in
  let elbow := keypoints (elbow_of side) in
  let wrist := keypoints (wrist_of side) in
  vis <- areKeypointsVisible [shoulder; elbow; wrist] ;;
  if negb vis then ret 0 else angleAt elbow shoulder elbow wrist.

(** [l.confidence > r.confidence ? l : r] *)
Definition better (l r : option Keypoint) : completion (option Keypoint) :=
  kl <- deref l ;;
  kr <- deref r ;;
  ret (if gtb (confidence kl) (confidence kr) then l else r).

Definition calculateNeckAngle (keypoints : JsKeypoints) : completion R :=
  ear <- better (keypoints left_ear) (keypoints right_ear) ;;
  shoulder <- better (keypoints left_shoulder) (keypoints right_shoulder) ;;
  hip <- better (keypoints left_hip) (keypoints right_hip) ;;
  vis <- areKeypointsVisible [ear; shoulder; hip] ;;
  if negb vis then ret 0 else angleAt shoulder ear shoulder hip.

Definition calculateJointAngles (keypoints : JsKeypoints) : completion Angles :=
  a1 <- calculateHipAngle keypoints Left ;;
  a2 <- calculateHipAngle keypoints Right ;;
  a3 <- calculateKneeAngle keypoints Left ;;
  a4 <- calculateKneeAngle keypoints Right ;;
  a5 <- calculateShoulderAngle keypoints Left ;;
  a6 <- calculateShoulderAngle keypoints Right ;;
  a7 <- calculateElbowAngle keypoints Left ;;
  a8 <- calculateElbowAngle keypoints Right ;;
  a9 <- calculateNeckAngle keypoints ;;
  ret (mkAngles a1 a2 a3 a4 a5 a6 a7 a8 a9).

Definition calculateBodyLineForSide (keypoints : JsKeypoints) (side : Side)
  : completion BodyLine :=
  let shoulder := keypoints (shoulder_of side) in
  let hip := keypoints (hip_of side) in
  let ankle := keypoints (ankle_of side) in
  vis <- areKeypointsVisible [shoulder; hip; ankle] ;;
  if negb vis then ret (mkBodyLine 0 0)
  else
    d <- diff ankle shoulder ;;
    ks <- deref shoulder ;;
    kh <- deref hip ;;
    ka <- deref ankle ;;
    ret (mkBodyLine
           (Math_atan2 (vx d) (vy d) * (180 / PI))
           ((confidence ks + confidence kh + confidence ka) / 3)).

Definition calculateBodyLineStraightness (keypoints : JsKeypoints)
  : completion BodyLine :=
  leftSide <- calculateBodyLineForSide keypoints Left ;;
  rightSide <- calculateBodyLineForSide keypoints Right ;;
  ret (if gtb (bl_confidence leftSide) (bl_confidence rightSide)
       then leftSide else rightSide).

(** [Array.prototype.filter] with the callback [kp => kp.confidence >= 0.6]. *)
Fixpoint filterVisible (kps : list (option Keypoint))
  : completion (list Keypoint) :=
  match kps with
  | [] => ret []
  | kp :: rest =>
      k <- deref kp ;;
      rest' <- filterVisible rest ;;
      ret (if geb (confidence k) (6 / 10) then k :: rest' else rest')
  end.

Definition averageY (kps : list (option Keypoint)) : completion R :=
  visible <- filterVisible kps ;;
  if Nat.eqb (length visible) 0 then ret 0
  else
    let sum := fold_left (fun acc kp => acc + y kp) visible 0 in
    ret (sum / INR (length visible)).

Definition ankleHeight (ankle : option Keypoint) : completion R :=
  k <- deref ankle ;;
  ret (if geb (confidence k) (6 / 10) then y k else 0).

Definition calculateBodyPositions (keypoints : JsKeypoints)
  : completion Positions :=
  hipHeight <- averageY [keypoints left_hip; keypoints right_hip] ;;
  shoulderHeight <-
    averageY [keypoints left_shoulder; keypoints right_shoulder] ;;
  leftAnkleHeight <- ankleHeight (keypoints left_ankle) ;;
  rightAnkleHeight <- ankleHeight (keypoints right_ankle) ;;
  headHeight <- averageY [keypoints left_ear; keypoints right_ear] ;;
  ret (mkPositions hipHeight shoulderHeight headHeight
                   leftAnkleHeight rightAnkleHeight).

(** [Object.keys(keypoints)]: the names whose property is present. *)
Definition Object_keys (keypoints : JsKeypoints) : list KeypointName :=
  filter (fun name => match keypoints name with Some _ => true | None => false end)
         all_keypoint_names.

Definition pairMean (a b : option Keypoint) : completion R :=
  ka <- deref a ;;
  kb <- deref b ;;
  ret ((confidence ka + confidence kb) / 2).

Definition calculateVisibility (keypoints : JsKeypoints)
  : completion VisibilityVerdict :=
  let keypointNames := Object_keys keypoints in
  let visibleKeypoints :=
    filter (fun name =>
              match keypoints name with
              | Some k => geb (confidence k) (6 / 10)
              | None => false
              end) keypointNames in
  let overall := INR (length visibleKeypoints) / INR (length keypointNames) in
  let criticalPointNames :=
    [left_shoulder; right_shoulder; left_hip; right_hip;
     left_ankle; right_ankle] in
  (* [keypoints[point]?.confidence || 0] cannot throw; the sum is never used *)
  let criticalVisibility :=
    fold_left (fun sum point =>
                 sum + match keypoints point with
                       | Some k => or_zero (confidence k)
                       | None => 0
                       end)
              criticalPointNames 0
    / INR (length criticalPointNames) in
  s <- pairMean (keypoints left_shoulder) (keypoints right_shoulder) ;;
  h <- pairMean (keypoints left_hip) (keypoints right_hip) ;;
  a <- pairMean (keypoints left_ankle) (keypoints right_ankle) ;;
  ret (mkVisibilityVerdict overall (mkCriticalPoints s h a)
                           (geb overall (1 / 2))).

(** The [try] block of [calculateFeatures]. *)
Definition tryBlock (e : FeatureEngine) (now : R) (pose : JsPose)
  : completion (FeatureEngine * Features) :=
  let keypoints := js_keypoints pose in
  angles <- calculateJointAngles keypoints ;;
  bodyLineData <- calculateBodyLineStraightness keypoints ;;
  positions <- calculateBodyPositions keypoints ;;
  let velocity :=
    calculateVelocities e now angles positions (bl_angle bodyLineData) in
  let stability := calculateStability e velocity in
  visibility <- calculateVisibility keypoints ;;
  let features :=
    mkFeatures (bl_angle bodyLineData) (bl_confidence bodyLineData)
               angles positions velocity stability visibility
               (js_timestamp pose) (js_frameId pose) in
  let features :=
    if smoothingApplies e then applySmoothing e features else features in
  ret (mkFeatureEngine (config e) (Some features) (smoothingFactor e),
       features).

Inductive ErrorType : Type := pose_estimation_failed.

Record AppError : Type := mkAppError {
  err_type : ErrorType;
  err_cause : JsError;
  err_timestamp : R;
  recoverable : bool
}.

(** [ServiceResponse<Features>]: [success: true] with [data], or
    [success: false] with [error]. *)
Inductive ServiceResponse : Type :=
| Success (data : Features) (timestamp : R)
| Failure (error : AppError) (timestamp : R).

Definition success (r : ServiceResponse) : bool :=
  match r with Success _ _ => true | Failure _ _ => false end.

(** [calculateFeatures] with its [catch] branch; [now] is the clock read by
    [calculateVelocities], [tret] the clock read when the response is built. *)
Definition calculateFeatures (e : FeatureEngine) (now tret : R) (pose : JsPose)
  : FeatureEngine * ServiceResponse :=
  match tryBlock e now pose with
  | Normal (e', features) => (e', Success features tret)
  | Throw err =>
      (e, Failure (mkAppError pose_estimation_failed err tret true) tret)
  end.

(** A run-time object that inhabits [Record<KeypointName, Keypoint>]. *)
Definition wellTyped (keypoints : JsKeypoints) : Prop :=
  forall name, keypoints name <> None.

Definition origin : Keypoint := mkKeypoint 0 0 0 (Some not_visible).

(** The typed view of a run-time keypoints object. *)
Definition typed (keypoints : JsKeypoints) : Keypoints :=
  fun name => match keypoints name with Some k => k | None => origin end.

Definition typedPose (pose : JsPose) : Pose :=
  mkPose (typed (js_keypoints pose)) (js_timestamp pose) (js_frameId pose)
         (js_visibilityScore pose).

End Runtime.

(** ** Vocabulary of the specification *)

Definition dotProduct (v1 v2 : Vec2) : R := vx v1 * vx v2 + vy v1 * vy v2.

Definition magnitude (v : Vec2) : R := sqrt (vx v * vx v + vy v * vy v).

Definition clamp (lo hi a : R) : R := Rmax lo (Rmin hi a).

Definition degrees (radians : R) : R := radians * (180 / PI).

(** The ten angle outputs of a Features: nine joint angles and the body
    line. *)
Inductive AngleField : Type :=
| FLeftHip | FRightHip | FLeftKnee | FRightKnee
| FLeftShoulder | FRightShoulder | FLeftElbow | FRightElbow
| FNeck | FBodyLine.

Definition fieldOf (field : AngleField) (f : Features) : R :=
  match field with
  | FLeftHip => leftHip (angles f)
  | FRightHip => rightHip (angles f)
  | FLeftKnee => leftKnee (angles f)
  | FRightKnee => rightKnee (angles f)
  | FLeftShoulder => leftShoulder (angles f)
  | FRightShoulder => rightShoulder (angles f)
  | FLeftElbow => leftElbow (angles f)
  | FRightElbow => rightElbow (angles f)
  | FNeck => neck (angles f)
  | FBodyLine => bodyLineAngle f
  end.

(** Some keypoint of the list has confidence below 0.6. *)
Definition anyBelow (kps : list Keypoint) : Prop :=
  exists k, In k kps /\ confidence k < 6 / 10.

Definition legKeypoints (k : Keypoints) (s : Side) : list Keypoint :=
  [k (hip_of s); k (knee_of s); k (ankle_of s)].
Definition shoulderKeypoints (k : Keypoints) (s : Side) : list Keypoint :=
  [k (hip_of s); k (shoulder_of s); k (elbow_of s)].
Definition elbowKeypoints (k : Keypoints) (s : Side) : list Keypoint :=
  [k (shoulder_of s); k (elbow_of s); k (wrist_of s)].
Definition neckKeypoints (k : Keypoints) : list Keypoint :=
  [neck_ear k; neck_shoulder k; neck_hip k].
Definition bodyLineKeypoints (k : Keypoints) (s : Side) : list Keypoint :=
  [k (shoulder_of s); k (hip_of s); k (ankle_of s)].

(** One of the three keypoints an angle is computed from is below 0.6.  The
    body line is computed for each side from that side's three keypoints
    and taken from the better side, so it is missing when each side lacks
    one of its three. *)
Definition missingFor (field : AngleField) (k : Keypoints) : Prop :=
  match field with
  | FLeftHip | FLeftKnee => anyBelow (legKeypoints k Left)
  | FRightHip | FRightKnee => anyBelow (legKeypoints k Right)
  | FLeftShoulder => anyBelow (shoulderKeypoints k Left)
  | FRightShoulder => anyBelow (shoulderKeypoints k Right)
  | FLeftElbow => anyBelow (elbowKeypoints k Left)
  | FRightElbow => anyBelow (elbowKeypoints k Right)
  | FNeck => anyBelow (neckKeypoints k)
  | FBodyLine =>
      anyBelow (bodyLineKeypoints k Left) /\ anyBelow (bodyLineKeypoints k Right)
  end.

(** How many of the named keypoints have confidence at least 0.6: the
    expression [visibleKeypoints.length] of [calculateVisibility]. *)
Abbreviation visibleCount k :=
  (length (filter (fun name => geb (confidence (k name)) (6 / 10))
                  all_keypoint_names)).

(** How many have confidence strictly above 0.6. *)
Definition strictlyAboveCount (k : Keypoints) : nat :=
  length (filter (fun name => gtb (confidence (k name)) (6 / 10))
                 all_keypoint_names).

(** The largest absolute velocity over the three tracked scalars. *)
Definition maxVelocity (v : Velocity) : R :=
  Rmax (Rmax (Rabs (v_bodyLineAngle v)) (Rabs (v_hipHeight v)))
       (Rabs (v_shoulderHeight v)).

(** The engine states that the public methods of the class can produce. *)
Inductive reachable : FeatureEngine -> Prop :=
| reach_new cfg : reachable (constructor cfg)
| reach_update e p : reachable e -> reachable (updateConfig e p)
| reach_reset e : reachable e -> reachable (reset e)
| reach_frame e now pose :
    reachable e -> reachable (fst (calculateFeatures e now pose)).

(** ** Sample inputs *)

Definition kp (px py c : R) : Keypoint := mkKeypoint px py c None.

(** What [PoseService.processPredictions] produces: every keypoint at the
    origin with confidence 0. *)
Definition blank_keypoints : Keypoints :=
  fun _ => mkKeypoint 0 0 0 (Some not_visible).

Definition blank_pose (t : R) : Pose :=
  mkPose blank_keypoints t String.EmptyString 0.

(** Every keypoint seen with confidence 0.9; the left leg bent at a right
    angle, the trunk upright. *)
Definition upright_keypoints : Keypoints :=
  fun name =>
    match name with
    | left_ear | right_ear => kp 0 0 (9 / 10)
    | left_shoulder | right_shoulder => kp 0 10 (9 / 10)
    | left_hip => kp 0 50 (9 / 10)
    | right_hip => kp 0 54 (9 / 10)
    | left_knee => kp 0 80 (9 / 10)
    | left_ankle => kp 30 80 (9 / 10)
    | right_ankle => kp 0 110 (9 / 10)
    | _ => kp 0 0 (9 / 10)
    end.

Definition upright_pose (t : R) : Pose :=
  mkPose upright_keypoints t String.EmptyString 1.

(** A fresh default engine after one frame of [upright_pose] stamped 0. *)
Definition engine_after_upright : FeatureEngine :=
  fst (calculateFeatures (constructor None) 0 (upright_pose 0)).

(** As [upright_keypoints], with the left knee out of sight. *)
Definition kneeless_keypoints : Keypoints :=
  fun name =>
    match name with
    | left_knee => kp 0 80 0
    | _ => upright_keypoints name
    end.

(** Every keypoint seen with confidence exactly 0.6. *)
Definition threshold_keypoints : Keypoints := fun _ => kp 0 0 (6 / 10).

(** Both sides fully in sight with the same mean confidence, 2.5 / 3; the
    left ankle is the more confident one.  The left body line leans 45
    degrees, the right one is vertical. *)
Definition tie_keypoints : Keypoints :=
  fun name =>
    match name with
    | left_shoulder => kp 0 0 (3 / 4)
    | left_hip => kp 0 0 (3 / 4)
    | left_ankle => kp 1 1 1
    | right_shoulder => kp 0 0 1
    | right_hip => kp 0 0 (3 / 4)
    | right_ankle => kp 0 1 (3 / 4)
    | _ => kp 0 0 0
    end.

(** The mean confidence of a side's shoulder, hip and ankle. *)
Definition meanConfidence (k : Keypoints) (s : Side) : R :=
  (confidence (k (shoulder_of s)) + confidence (k (hip_of s))
   + confidence (k (ankle_of s))) / 3.

(** The deviation from vertical of the line from shoulder to ankle. *)
Definition sideAngle (k : Keypoints) (s : Side) : R :=
  degrees (Math_atan2 (x (k (ankle_of s)) - x (k (shoulder_of s)))
                      (y (k (ankle_of s)) - y (k (shoulder_of s)))).

(** The side the specification's rule selects: the higher mean confidence,
    and on equal means the higher ankle confidence. *)
Definition specifiedSide (k : Keypoints) : option Side :=
  if gtb (meanConfidence k Left) (meanConfidence k Right) then Some Left
  else if gtb (meanConfidence k Right) (meanConfidence k Left) then Some Right
  else if gtb (confidence (k left_ankle)) (confidence (k right_ankle))
       then Some Left
  else if gtb (confidence (k right_ankle)) (confidence (k left_ankle))
       then Some Right
  else None.

(** The height of a pair of keypoints: the mean y of those in sight. *)
Definition pairHeight (a b : Keypoint) : R :=
  match is_visible a, is_visible b with
  | true, true => (y a + y b) / 2
  | true, false => y a
  | false, true => y b
  | false, false => 0
  end.

Definition soloHeight (a : Keypoint) : R :=
  if is_visible a then y a else 0.

(** Two keypoints objects that differ only in the coordinates of keypoints
    below 0.6. *)
Definition sameVisible (k1 k2 : Keypoints) : Prop :=
  forall name,
    confidence (k1 name) = confidence (k2 name)
    /\ (6 / 10 <= confidence (k1 name) ->
        x (k1 name) = x (k2 name) /\ y (k1 name) = y (k2 name)).

(** As [upright_keypoints], but the left hip, out of sight, is reported at a
    wild position. *)
Definition stray_hip_keypoints : Keypoints :=
  fun name =>
    match name with
    | left_hip => kp 999 (-999) (1 / 2)
    | _ => upright_keypoints name
    end.

Definition hidden_hip_keypoints : Keypoints :=
  fun name =>
    match name with
    | left_hip => kp 0 50 (1 / 2)
    | _ => upright_keypoints name
    end.

(** The run-time object [processPredictions] builds: all 21 properties
    present, confidence 0. *)
Definition blank_js_pose (t : R) : Runtime.JsPose :=
  Runtime.mkJsPose (fun name => Some (blank_keypoints name)) t
                   String.EmptyString 0.

(** An object that lacks the [left_hip] property. *)
Definition hipless_js_pose : Runtime.JsPose :=
  Runtime.mkJsPose
    (fun name => match name with
                 | left_hip => None
                 | _ => Some (upright_keypoints name)
                 end)
    0 String.EmptyString 1.

(** The fields [applySmoothing] never assigns. *)
Definition untouched (f g : Features) : Prop :=
  bodyLineConfidence f = bodyLineConfidence g
  /\ positions f = positions g
  /\ velocity f = velocity g
  /\ stability f = stability g
  /\ visibility_verdict f = visibility_verdict g
  /\ timestamp f = timestamp g
  /\ frameId f = frameId g.



(** ** Vocabulary for the geometric properties *)



(** All nine joint angles lie in [0, 180]. *)
Definition anglesInRange (a : Angles) : Prop :=
  0 <= leftHip a <= 180 /\ 0 <= rightHip a <= 180
  /\ 0 <= leftKnee a <= 180 /\ 0 <= rightKnee a <= 180
  /\ 0 <= leftShoulder a <= 180 /\ 0 <= rightShoulder a <= 180
  /\ 0 <= leftElbow a <= 180 /\ 0 <= rightElbow a <= 180
  /\ 0 <= neck a <= 180.

(** The knee angle and the hip angle of each side coincide. *)
Definition kneeHipAgree (a : Angles) : Prop :=
  leftKnee a = leftHip a /\ rightKnee a = rightHip a.


(** ** Vocabulary for the run-time behaviour *)

(** The property [name] exists on the object. *)
Definition isPresent (jk : Runtime.JsKeypoints) (name : KeypointName) : bool :=
  match jk name with Some _ => true | None => false end.

(** The property exists and its confidence reaches 0.6. *)
Definition isSeen (jk : Runtime.JsKeypoints) (name : KeypointName) : bool :=
  match jk name with
  | Some q => geb (confidence q) (6 / 10)
  | None => false
  end.

(** The keypoints whose confidence is read whatever the pose. *)
Definition alwaysRead : list KeypointName :=
  [left_hip; right_hip; left_shoulder; right_shoulder;
   left_ear; right_ear; left_ankle; right_ankle].

(** The keypoints of one side that are read only behind a visibility test:
    the knee when the hip is seen, the elbow when the shoulder is seen, the
    wrist when shoulder and elbow are seen. *)
Definition sideReadable (jk : Runtime.JsKeypoints) (s : Side) : bool :=
  implb (isSeen jk (hip_of s)) (isPresent jk (knee_of s))
  && implb (isSeen jk (shoulder_of s)) (isPresent jk (elbow_of s))
  && implb (isSeen jk (shoulder_of s) && isSeen jk (elbow_of s))
           (isPresent jk (wrist_of s)).

Definition readable (jk : Runtime.JsKeypoints) : bool :=
  forallb (isPresent jk) alwaysRead
  && sideReadable jk Left && sideReadable jk Right.

(** [every] over three values that may be [undefined] completes when the
    first is present and each later one is present if reached. *)
Definition chain (a b c : option Keypoint) : bool :=
  match a with
  | None => false
  | Some qa =>
      if geb (confidence qa) (6 / 10) then
        match b with
        | None => false
        | Some qb =>
            if geb (confidence qb) (6 / 10) then
              match c with Some _ => true | None => false end
            else true
        end
      else true
  end.

Definition orOrigin (o : option Keypoint) : Keypoint :=
  match o with Some q => q | None => Runtime.origin end.

(** The accesses of the [try] block, helper by helper, in program order. *)
Definition accessOK (jk : Runtime.JsKeypoints) : bool :=
  let leg s := chain (jk (hip_of s)) (jk (knee_of s)) (jk (ankle_of s)) in
  let arm s := chain (jk (hip_of s)) (jk (shoulder_of s)) (jk (elbow_of s)) in
  let fore s := chain (jk (shoulder_of s)) (jk (elbow_of s)) (jk (wrist_of s)) in
  let line s := chain (jk (shoulder_of s)) (jk (hip_of s)) (jk (ankle_of s)) in
  let pair a b := isPresent jk a && isPresent jk b in
  leg Left && leg Right && arm Left && arm Right && fore Left && fore Right
  && (pair left_ear right_ear && pair left_shoulder right_shoulder
      && pair left_hip right_hip)
  && line Left && line Right
  && (pair left_hip right_hip && pair left_shoulder right_shoulder
      && isPresent jk left_ankle && isPresent jk right_ankle
      && pair left_ear right_ear)
  && (pair left_shoulder right_shoulder && pair left_hip right_hip
      && pair left_ankle right_ankle).

(** The visibility verdict over the properties that exist. *)
Definition presentVerdict (jk : Runtime.JsKeypoints) : VisibilityVerdict :=
  let keys := Runtime.Object_keys jk in
  let overall := INR (length (filter (isSeen jk) keys)) / INR (length keys) in
  mkVisibilityVerdict overall
    (criticalPoints (calculateVisibility (Runtime.typed jk)))
    (geb overall (1 / 2)).

Definition withVisibility (f : Features) (v : VisibilityVerdict) : Features :=
  mkFeatures (bodyLineAngle f) (bodyLineConfidence f) (angles f) (positions f)
             (velocity f) (stability f) v (timestamp f) (frameId f).

(** A pose from a 17-keypoint model whose left leg is hidden: no heel or
    toe properties, no left knee, and a left hip at confidence 0.3. *)
Definition sparse_js_pose : Runtime.JsPose :=
  Runtime.mkJsPose
    (fun name =>
       match name with
       | left_heel | right_heel | left_toe | right_toe => None
       | left_knee => None
       | left_hip => Some (kp 0 50 (3 / 10))
       | _ => Some (upright_keypoints name)
       end)
    0 String.EmptyString 1.

(** The same pose with the left hip in sight. *)
Definition kneeless_js_pose : Runtime.JsPose :=
  Runtime.mkJsPose
    (fun name =>
       match name with
       | left_heel | right_heel | left_toe | right_toe => None
       | left_knee => None
       | _ => Some (upright_keypoints name)
       end)
    0 String.EmptyString 1.

(** ** The pose service ([src/pose/PoseService.ts])

    The synchronous, numeric part of the class that produces the poses:
    the visibility helpers and the inference-time statistics.  Model
    loading, tensors and callbacks are not part of it. *)

Module PoseService.

(** The fields of [PoseServiceConfig] that are numbers or booleans
    ([modelUrl] and [poseNetConfig] concern the model only). *)
Record PoseServiceConfig : Type := mkPoseServiceConfig {
  confidenceThreshold : R;
  visibilityThreshold : R;
  maxPoses : R;
  enableSmoothing : bool;
  smoothingFactor : R;
  nmsRadius : R;
  scoreThreshold : R
}.

Definition default_config : PoseServiceConfig :=
  mkPoseServiceConfig (6 / 10) (6 / 10) 1 true (1 / 10) 20 (3 / 10).

Record PoseServiceState : Type := mkPoseServiceState {
  isInitialized : bool;
  isModelLoaded : bool;
  isProcessing : bool;
  lastInferenceTime : R;
  averageInferenceTime : R;
  totalInferences : nat;
  error : option Runtime.AppError
}.

Definition initial_state : PoseServiceState :=
  mkPoseServiceState false false false 0 0 0 None.

(** The private fields the modelled methods read and write. *)
Record PoseService : Type := mkPoseService {
  config : PoseServiceConfig;
  state : PoseServiceState;
  inferenceTimes : list R
}.

Definition maxInferenceHistory : nat := 10.

(** [Partial<PoseServiceConfig>]: each property may be absent. *)
Record PartialConfig : Type := mkPartialConfig {
  p_confidenceThreshold : option R;
  p_visibilityThreshold : option R;
  p_maxPoses : option R;
  p_enableSmoothing : option bool;
  p_smoothingFactor : option R;
  p_nmsRadius : option R;
  p_scoreThreshold : option R
}.

Definition no_overrides : PartialConfig :=
  mkPartialConfig None None None None None None None.

(** The object spread [{ ...base, ...over }]. *)
Definition spread (base : PoseServiceConfig) (over : PartialConfig)
  : PoseServiceConfig :=
  let pick {A} (o : option A) (d : A) := match o with Some v => v | None => d end in
  mkPoseServiceConfig
    (pick (p_confidenceThreshold over) (confidenceThreshold base))
    (pick (p_visibilityThreshold over) (visibilityThreshold base))
    (pick (p_maxPoses over) (maxPoses base))
    (pick (p_enableSmoothing over) (enableSmoothing base))
    (pick (p_smoothingFactor over) (smoothingFactor base))
    (pick (p_nmsRadius over) (nmsRadius base))
    (pick (p_scoreThreshold over) (scoreThreshold base)).

Definition constructor (cfg : option PartialConfig) : PoseService :=
  mkPoseService
    (spread default_config
            (match cfg with Some p => p | None => no_overrides end))
    initial_state [].


(** The keypoints [processPredictions] returns in its present form: all 21
    names, each at the origin with confidence 0. *)
Definition processPredictions : Keypoints :=
  fun _ => mkKeypoint 0 0 0 (Some not_visible).

Definition calculateVisibilityScore (sv : PoseService) (keypoints : Keypoints)
  : R :=
  let keypointNames := all_keypoint_names in
  let visibleKeypoints :=
    filter (fun name =>
              geb (confidence (keypoints name))
                  (visibilityThreshold (config sv)))
           keypointNames in
  INR (length visibleKeypoints) / INR (length keypointNames).

Definition isKeypointVisible (sv : PoseService) (c : R) : bool :=
  geb c (visibilityThreshold (config sv)).

Definition getKeypointVisibility (sv : PoseService) (c : R) : Visibility :=
  if geb c (visibilityThreshold (config sv)) then visible
  else if geb c (confidenceThreshold (config sv)) then occluded
  else not_visible.

(** [push], then [shift] when more than ten times are kept, then the mean
    of what is kept. *)
Definition updatePerformanceMetrics (sv : PoseService) (inferenceTime : R)
  : PoseService :=
  let pushed := inferenceTimes sv ++ [inferenceTime] in
  let kept :=
    if Nat.ltb maxInferenceHistory (length pushed) then tl pushed
    else pushed in
  let st := state sv in
  mkPoseService (config sv)
    (mkPoseServiceState
       (isInitialized st) (isModelLoaded st) (isProcessing st)
       (lastInferenceTime st)
       (fold_left Rplus kept 0 / INR (length kept))
       (S (totalInferences st))
       (error st))
    kept.

End PoseService.

(** The last ten elements of a list (all of it when it is shorter). *)
Definition lastTen (l : list R) : list R := skipn (length l - 10) l.

(** The spread [{ ...p, ...q }] of two partial configurations: a property
    of [q] wins over the same property of [p]. *)
Definition merge_partial (p q : PartialFeatureConfig) : PartialFeatureConfig :=
  let over {A} (b a : option A) := match b with Some v => Some v | None => a end in
  mkPartialFeatureConfig
    (over (p_smoothingFactor q) (p_smoothingFactor p))
    (over (p_stabilityWindowMs q) (p_stabilityWindowMs p))
    (over (p_motionThreshold q) (p_motionThreshold p))
    (over (p_angleCalculationMethod q) (p_angleCalculationMethod p)).


(** The pose seen in a mirror: every x-coordinate negated. *)
Definition mirror (k : Keypoints) : Keypoints :=
  fun name =>
    mkKeypoint (- x (k name)) (y (k name))
               (confidence (k name)) (visibility (k name)).

(** The line from shoulder to ankle of a side points straight up. *)
Definition straightUp (k : Keypoints) (s : Side) : Prop :=
  x (k (ankle_of s)) = x (k (shoulder_of s))
  /\ y (k (ankle_of s)) < y (k (shoulder_of s)).

(** Left shoulder at confidence 1, every other keypoint at 0.2. *)
Definition lopsided_keypoints : Keypoints :=
  fun name =>
    match name with
    | left_shoulder => kp 0 0 1
    | _ => kp 0 0 (2 / 10)
    end.

(** * Properties *)

(** ** Comparisons *)

Lemma geb_true a b : geb a b = true <-> b <= a.
Proof. unfold geb; destruct (Rle_dec b a); split; intros; auto; discriminate. Qed.

Lemma geb_false a b : geb a b = false <-> a < b.
Proof.
  unfold geb; destruct (Rle_dec b a); split; intros; auto; try discriminate; lra.
Qed.

Lemma gtb_true a b : gtb a b = true <-> b < a.
Proof. unfold gtb; destruct (Rlt_dec b a); split; intros; auto; discriminate. Qed.

Lemma gtb_false a b : gtb a b = false <-> a <= b.
Proof.
  unfold gtb; destruct (Rlt_dec b a); split; intros; auto; try discriminate; lra.
Qed.

Lemma leb_true a b : leb a b = true <-> a <= b.
Proof. unfold leb; destruct (Rle_dec a b); split; intros; auto; discriminate. Qed.

Lemma leb_false a b : leb a b = false <-> b < a.
Proof.
  unfold leb; destruct (Rle_dec a b); split; intros; auto; try discriminate; lra.
Qed.

Lemma eqb_true a b : eqb a b = true <-> a = b.
Proof. unfold eqb; destruct (Req_dec_T a b); split; intros; auto; discriminate. Qed.

Lemma eqb_false a b : eqb a b = false <-> a <> b.
Proof.
  unfold eqb; destruct (Req_dec_T a b); split; intros; auto; try discriminate;
    contradiction.
Qed.

(** Decide a comparison between closed rational expressions. *)
Ltac cmp :=
  repeat match goal with
  | |- context [geb ?a ?b] =>
      first [ replace (geb a b) with true by (symmetry; apply geb_true; lra)
            | replace (geb a b) with false by (symmetry; apply geb_false; lra) ]
  | |- context [gtb ?a ?b] =>
      first [ replace (gtb a b) with true by (symmetry; apply gtb_true; lra)
            | replace (gtb a b) with false by (symmetry; apply gtb_false; lra) ]
  | |- context [leb ?a ?b] =>
      first [ replace (leb a b) with true by (symmetry; apply leb_true; lra)
            | replace (leb a b) with false by (symmetry; apply leb_false; lra) ]
  | |- context [eqb ?a ?b] =>
      first [ replace (eqb a b) with true by (symmetry; apply eqb_true; lra)
            | replace (eqb a b) with false by (symmetry; apply eqb_false; lra) ]
  end.

Lemma is_visible_true kp : is_visible kp = true <-> 6 / 10 <= confidence kp.
Proof. apply geb_true. Qed.

Lemma is_visible_false kp : is_visible kp = false <-> confidence kp < 6 / 10.
Proof. apply geb_false. Qed.

(** [areKeypointsVisible] fails as soon as one keypoint is below 0.6. *)
Lemma not_visible_of_low (kps : list Keypoint) (kp : Keypoint) :
  In kp kps -> confidence kp < 6 / 10 -> areKeypointsVisible kps = false.
Proof.
  intros Hin Hlow. unfold areKeypointsVisible.
  destruct (forallb is_visible kps) eqn:E; [|reflexivity].
  rewrite forallb_forall in E. specialize (E kp Hin).
  apply is_visible_true in E. lra.
Qed.

Lemma visible_all (kps : list Keypoint) :
  areKeypointsVisible kps = true <->
  forall kp, In kp kps -> 6 / 10 <= confidence kp.
Proof.
  unfold areKeypointsVisible. rewrite forallb_forall.
  split; intros H kp Hin; specialize (H kp Hin); now apply is_visible_true.
Qed.

(** ** The angle between two vectors *)

Lemma degrees_PI : degrees PI = 180.
Proof. unfold degrees. field. apply PI_neq0. Qed.

Lemma degrees_range (a : R) : 0 <= a <= PI -> 0 <= degrees a <= 180.
Proof.
  intros [H0 H1]. rewrite <- degrees_PI. unfold degrees.
  assert (HP : 0 < 180 / PI)
    by (apply Rdiv_lt_0_compat; [lra | apply PI_RGT_0]).
  split.
  - apply Rmult_le_pos; lra.
  - apply Rmult_le_compat_r; lra.
Qed.

Lemma clamp_range (a : R) : -1 <= clamp (-1) 1 a <= 1.
Proof.
  unfold clamp, Rmax, Rmin.
  destruct (Rle_dec 1 a); destruct (Rle_dec (-1) _); lra.
Qed.

Lemma magnitude_zero (v : Vec2) : magnitude v = 0 <-> vx v = 0 /\ vy v = 0.
Proof.
  unfold magnitude. split.
  - intros H. apply sqrt_eq_0 in H; [|nra]. split; nra.
  - intros [-> ->]. replace (0 * 0 + 0 * 0) with 0 by ring. apply sqrt_0.
Qed.

Lemma angle_unfold (v1 v2 : Vec2) :
  calculateAngleBetweenVectors v1 v2 =
  if eqb (magnitude v1) 0 || eqb (magnitude v2) 0 then 0
  else degrees (acos (clamp (-1) 1
                        (dotProduct v1 v2 / (magnitude v1 * magnitude v2)))).
Proof. reflexivity. Qed.

(** The hip angle is the angle at the knee, between the vectors from the
    knee to the hip and from the knee to the ankle. *)
Lemma hip_angle_visible (k : Keypoints) (s : Side) :
  areKeypointsVisible [k (hip_of s); k (knee_of s); k (ankle_of s)] = true ->
  calculateHipAngle k s
  = calculateAngleBetweenVectors
      (mkVec2 (x (k (hip_of s)) - x (k (knee_of s)))
              (y (k (hip_of s)) - y (k (knee_of s))))
      (mkVec2 (x (k (ankle_of s)) - x (k (knee_of s)))
              (y (k (ankle_of s)) - y (k (knee_of s)))).
Proof. intros H. unfold calculateHipAngle. now rewrite H. Qed.

(** C3: the angle helper divides the dot product by the product of the
    magnitudes, clamps the ratio to [-1, 1], takes the inverse cosine and
    converts to degrees; the result lies in [0, 180]; a vector of zero
    magnitude (the zero vector) gives 0 without any division. *)
Theorem C3_angle_between_vectors (v1 v2 : Vec2) :
  0 <= calculateAngleBetweenVectors v1 v2 <= 180
  /\ (magnitude v1 = 0 \/ magnitude v2 = 0 ->
      calculateAngleBetweenVectors v1 v2 = 0)
  /\ (magnitude v1 <> 0 -> magnitude v2 <> 0 ->
      -1 <= clamp (-1) 1 (dotProduct v1 v2 / (magnitude v1 * magnitude v2)) <= 1
      /\ calculateAngleBetweenVectors v1 v2 =
         degrees (acos (clamp (-1) 1
                   (dotProduct v1 v2 / (magnitude v1 * magnitude v2))))).
Proof.
  rewrite angle_unfold.
  destruct (eqb (magnitude v1) 0) eqn:E1; simpl.
  { apply eqb_true in E1. split; [lra|]. split; [reflexivity|].
    intros H; contradiction. }
  destruct (eqb (magnitude v2) 0) eqn:E2.
  { apply eqb_true in E2. split; [lra|]. split; [reflexivity|].
    intros _ H; contradiction. }
  apply eqb_false in E1. apply eqb_false in E2.
  split; [apply degrees_range, acos_bound|].
  split; [intros [H | H]; contradiction|].
  intros _ _. split; [apply clamp_range | reflexivity].
Qed.

(** A right angle: the vectors (0,1) and (1,0) are 90 degrees apart. *)
Lemma C3_witness_right_angle :
  magnitude (mkVec2 0 1) <> 0 /\ magnitude (mkVec2 1 0) <> 0
  /\ calculateAngleBetweenVectors (mkVec2 0 1) (mkVec2 1 0) = 90.
Proof.
  assert (M1 : magnitude (mkVec2 0 1) = 1).
  { unfold magnitude; simpl. replace (0 * 0 + 1 * 1) with 1 by ring. apply sqrt_1. }
  assert (M2 : magnitude (mkVec2 1 0) = 1).
  { unfold magnitude; simpl. replace (1 * 1 + 0 * 0) with 1 by ring. apply sqrt_1. }
  split; [rewrite M1; lra|]. split; [rewrite M2; lra|].
  destruct (C3_angle_between_vectors (mkVec2 0 1) (mkVec2 1 0)) as (_ & _ & H).
  destruct H as [_ H]; [rewrite M1; lra | rewrite M2; lra |].
  rewrite H, M1, M2. unfold dotProduct; simpl.
  replace ((0 * 1 + 1 * 0) / (1 * 1)) with 0 by field.
  unfold clamp, Rmax, Rmin.
  destruct (Rle_dec 1 0); [lra|]. destruct (Rle_dec (-1) 0); [|lra].
  rewrite acos_0. unfold degrees. field. apply PI_neq0.
Defined.

(** ** What smoothing and the entry point leave alone *)

Lemma calculateFeatures_data (e : FeatureEngine) (now : R) (pose : Pose) :
  snd (calculateFeatures e now pose) =
  if smoothingApplies e then applySmoothing e (rawFeatures e now pose)
  else rawFeatures e now pose.
Proof. reflexivity. Qed.

Lemma calculateFeatures_state (e : FeatureEngine) (now : R) (pose : Pose) :
  fst (calculateFeatures e now pose) =
  mkFeatureEngine (config e) (Some (snd (calculateFeatures e now pose)))
                  (smoothingFactor e).
Proof. reflexivity. Qed.

Lemma smoothingApplies_true (e : FeatureEngine) :
  smoothingApplies e = true <->
  0 < cfg_smoothingFactor (config e) /\ exists prev, previousFeatures e = Some prev.
Proof.
  unfold smoothingApplies. rewrite andb_true_iff, gtb_true.
  destruct (previousFeatures e) as [p|]; split; intros [H1 H2]; split; auto.
  - now exists p.
  - discriminate.
  - destruct H2 as [? H2]; discriminate.
Qed.

Lemma smoothingApplies_fresh (e : FeatureEngine) :
  previousFeatures e = None -> smoothingApplies e = false.
Proof. unfold smoothingApplies. intros ->. apply andb_false_r. Qed.

Lemma smoothingApplies_disabled (e : FeatureEngine) :
  cfg_smoothingFactor (config e) <= 0 -> smoothingApplies e = false.
Proof.
  unfold smoothingApplies. intros H.
  apply gtb_false in H. now rewrite H.
Qed.

Lemma applySmoothing_untouched (e : FeatureEngine) (f : Features) :
  untouched (applySmoothing e f) f.
Proof.
  unfold applySmoothing, untouched.
  destruct (previousFeatures e); simpl; repeat split; reflexivity.
Qed.

Lemma data_untouched (e : FeatureEngine) (now : R) (pose : Pose) :
  untouched (snd (calculateFeatures e now pose)) (rawFeatures e now pose).
Proof.
  rewrite calculateFeatures_data. destruct (smoothingApplies e).
  - apply applySmoothing_untouched.
  - unfold untouched; repeat split; reflexivity.
Qed.

(** Every reachable engine smooths with the configured factor. *)
Lemma reachable_alpha (e : FeatureEngine) :
  reachable e -> smoothingFactor e = cfg_smoothingFactor (config e).
Proof. induction 1; simpl; auto. Qed.

Lemma default_smoothingFactor :
  cfg_smoothingFactor (config (constructor None)) = 1 / 10
  /\ smoothingFactor (constructor None) = 1 / 10.
Proof. split; reflexivity. Qed.

(** ** Velocity *)

(** C4: with a stored previous Features, each velocity component is the
    current value minus the stored one, divided by the seconds elapsed
    between the previous timestamp and the clock read by this call; when
    that time is not positive, all three components are 0. *)
Theorem C4_velocity (e : FeatureEngine) (now : R) (pose : Pose)
    (prev : Features) :
  previousFeatures e = Some prev ->
  let dt := (now - timestamp prev) / 1000 in
  let out := snd (calculateFeatures e now pose) in
  let line := bl_angle (calculateBodyLineStraightness (keypoints pose)) in
  let pos := calculateBodyPositions (keypoints pose) in
  (dt <= 0 -> velocity out = mkVelocity 0 0 0)
  /\ (0 < dt ->
      v_bodyLineAngle (velocity out) = (line - bodyLineAngle prev) / dt
      /\ v_hipHeight (velocity out)
         = (hipHeight pos - hipHeight (positions prev)) / dt
      /\ v_shoulderHeight (velocity out)
         = (shoulderHeight pos - shoulderHeight (positions prev)) / dt).
Proof.
  intros Hprev dt out line pos.
  destruct (data_untouched e now pose) as (_ & _ & Hv & _).
  fold out in Hv. rewrite Hv.
  unfold rawFeatures; simpl. unfold calculateVelocities. rewrite Hprev.
  fold dt. split; intros Hdt.
  - apply leb_true in Hdt. now rewrite Hdt.
  - apply leb_false in Hdt. rewrite Hdt. simpl. repeat split; reflexivity.
Qed.

(** The elapsed time is measured from the stored timestamp to the clock
    read by the call; the timestamp of the current pose plays no part. *)
Lemma velocity_ignores_pose_timestamp (e : FeatureEngine) (now t1 t2 : R)
    (k : Keypoints) (id : String.string) (score : R) :
  velocity (snd (calculateFeatures e now (mkPose k t1 id score)))
  = velocity (snd (calculateFeatures e now (mkPose k t2 id score))).
Proof.
  destruct (data_untouched e now (mkPose k t1 id score)) as (_ & _ & H1 & _).
  destruct (data_untouched e now (mkPose k t2 id score)) as (_ & _ & H2 & _).
  rewrite H1, H2. reflexivity.
Qed.

Lemma first_frame_raw (e : FeatureEngine) (now : R) (pose : Pose) :
  previousFeatures e = None ->
  snd (calculateFeatures e now pose) = rawFeatures e now pose.
Proof.
  intros H. rewrite calculateFeatures_data.
  now rewrite (smoothingApplies_fresh e H).
Qed.

Lemma engine_after_upright_prev :
  previousFeatures engine_after_upright
  = Some (rawFeatures (constructor None) 0 (upright_pose 0)).
Proof.
  unfold engine_after_upright. rewrite calculateFeatures_state.
  cbn [previousFeatures]. now rewrite first_frame_raw.
Qed.

Lemma upright_hipHeight :
  hipHeight (calculateBodyPositions upright_keypoints) = 52.
Proof.
  unfold calculateBodyPositions, averageY, is_visible, VISIBILITY_THRESHOLD.
  simpl. cmp. simpl. lra.
Qed.

Lemma blank_hipHeight :
  hipHeight (calculateBodyPositions blank_keypoints) = 0.
Proof.
  unfold calculateBodyPositions, averageY, is_visible, VISIBILITY_THRESHOLD.
  simpl. cmp. reflexivity.
Qed.

(** At the very instant of the stored frame the velocity is 0; one second
    later the hip, gone from 52 to 0, moves at -52 per second. *)
Lemma C4_witness :
  velocity (snd (calculateFeatures engine_after_upright 0 (blank_pose 0)))
  = mkVelocity 0 0 0
  /\ v_hipHeight
       (velocity (snd (calculateFeatures engine_after_upright 1000
                                         (blank_pose 1000))))
     = -52.
Proof.
  pose proof engine_after_upright_prev as Hprev.
  split.
  - apply (C4_velocity engine_after_upright 0 (blank_pose 0) _ Hprev).
    simpl. lra.
  - destruct (C4_velocity engine_after_upright 1000 (blank_pose 1000) _ Hprev)
      as [_ H].
    destruct H as (_ & H & _); [simpl; lra|].
    rewrite H.
    change (keypoints (blank_pose 1000)) with blank_keypoints.
    rewrite blank_hipHeight.
    change (positions (rawFeatures (constructor None) 0 (upright_pose 0)))
      with (calculateBodyPositions upright_keypoints).
    rewrite upright_hipHeight. simpl. field.
Defined.

(** ** Stability *)

Lemma maxVelocity_nonneg (v : Velocity) : 0 <= maxVelocity v.
Proof.
  unfold maxVelocity.
  eapply Rle_trans; [apply (Rabs_pos (v_shoulderHeight v)) | apply Rmax_r].
Qed.

Lemma maxVelocity_le (v : Velocity) (t : R) :
  maxVelocity v <= t <->
  Rabs (v_bodyLineAngle v) <= t /\ Rabs (v_hipHeight v) <= t
  /\ Rabs (v_shoulderHeight v) <= t.
Proof.
  unfold maxVelocity. split.
  - intros H.
    pose proof (Rmax_l (Rmax (Rabs (v_bodyLineAngle v)) (Rabs (v_hipHeight v)))
                       (Rabs (v_shoulderHeight v))).
    pose proof (Rmax_r (Rmax (Rabs (v_bodyLineAngle v)) (Rabs (v_hipHeight v)))
                       (Rabs (v_shoulderHeight v))).
    pose proof (Rmax_l (Rabs (v_bodyLineAngle v)) (Rabs (v_hipHeight v))).
    pose proof (Rmax_r (Rabs (v_bodyLineAngle v)) (Rabs (v_hipHeight v))).
    repeat split; lra.
  - intros (H1 & H2 & H3). repeat apply Rmax_lub; assumption.
Qed.

Lemma isStable_iff (e : FeatureEngine) (v : Velocity) :
  isStable (calculateStability e v) = true <->
  Rabs (v_bodyLineAngle v) <= motionThreshold (config e)
  /\ Rabs (v_hipHeight v) <= motionThreshold (config e)
  /\ Rabs (v_shoulderHeight v) <= motionThreshold (config e).
Proof.
  unfold calculateStability; cbn [isStable]. unfold Math_abs.
  rewrite negb_true_iff, !orb_false_iff, !gtb_false. tauto.
Qed.

(** C5: the verdict is stable exactly when no tracked scalar is faster, in
    absolute value, than the motion threshold; the motion gate is the
    negation; and for a positive threshold the score is
    clamp(1 - maxVelocity / (2 * threshold), 0, 1). *)
Theorem C5_stability (e : FeatureEngine) (v : Velocity) :
  0 < motionThreshold (config e) ->
  let t := motionThreshold (config e) in
  let s := calculateStability e v in
  (isStable s = true <->
     Rabs (v_bodyLineAngle v) <= t /\ Rabs (v_hipHeight v) <= t
     /\ Rabs (v_shoulderHeight v) <= t)
  /\ (isStable s = true <-> maxVelocity v <= t)
  /\ motionGate s = negb (isStable s)
  /\ stabilityScore s = clamp 0 1 (1 - maxVelocity v / (2 * t)).
Proof.
  intros Ht t s. split; [apply isStable_iff|].
  split; [rewrite maxVelocity_le; apply isStable_iff|].
  split.
  - unfold s, calculateStability; cbn [motionGate isStable].
    now rewrite negb_involutive.
  - unfold s, calculateStability; cbn [stabilityScore].
    unfold Math_max, Math_max3, Math_abs, clamp. fold (maxVelocity v). fold t.
    replace (t * 2) with (2 * t) by ring.
    assert (Hq : 0 <= maxVelocity v / (2 * t)).
    { pose proof (maxVelocity_nonneg v) as Hm.
      unfold Rdiv. apply Rmult_le_pos; [exact Hm|].
      left. apply Rinv_0_lt_compat. unfold t. lra. }
    set (q := maxVelocity v / (2 * t)) in *.
    rewrite (Rmin_right 1 (1 - q)); [reflexivity | lra].
Qed.

(** With the default threshold 5: a hip moving at 2 per second is stable
    with score 0.8. *)
Lemma C5_witness :
  let s := calculateStability (constructor None) (mkVelocity 0 2 0) in
  isStable s = true /\ motionGate s = false /\ stabilityScore s = 8 / 10.
Proof.
  assert (Ht : 0 < motionThreshold (config (constructor None)))
    by (simpl; lra).
  destruct (C5_stability (constructor None) (mkVelocity 0 2 0) Ht)
    as (Hs & _ & Hg & Hsc).
  assert (Hst : isStable (calculateStability (constructor None)
                            (mkVelocity 0 2 0)) = true).
  { apply Hs. simpl. rewrite Rabs_R0, (Rabs_pos_eq 2) by lra. lra. }
  cbv zeta. split; [exact Hst|]. split; [now rewrite Hg, Hst|].
  rewrite Hsc. unfold maxVelocity; simpl.
  rewrite Rabs_R0, (Rabs_pos_eq 2) by lra.
  rewrite (Rmax_right 0 2) by lra. rewrite (Rmax_left 2 0) by lra.
  unfold clamp. replace (1 - 2 / (2 * 5)) with (8 / 10) by field.
  rewrite Rmin_right by lra. apply Rmax_right. lra.
Defined.

(** ** Smoothing *)

(** C7: when the smoothing factor is positive and a previous Features is
    stored, the returned Features has each of the nine joint angles and the
    body-line angle replaced by alpha * current + (1 - alpha) * previous,
    alpha being the configured factor (0.1 by default), and every other
    field as computed before smoothing. *)
Theorem C7_smoothing (e : FeatureEngine) (now : R) (pose : Pose)
    (prev : Features) :
  reachable e ->
  0 < cfg_smoothingFactor (config e) ->
  previousFeatures e = Some prev ->
  let alpha := cfg_smoothingFactor (config e) in
  let raw := rawFeatures e now pose in
  let out := snd (calculateFeatures e now pose) in
  let ema (field : Angles -> R) :=
    field (angles out)
    = alpha * field (angles raw) + (1 - alpha) * field (angles prev) in
  (ema leftHip /\ ema rightHip /\ ema leftKnee /\ ema rightKnee
   /\ ema leftShoulder /\ ema rightShoulder /\ ema leftElbow
   /\ ema rightElbow /\ ema neck)
  /\ bodyLineAngle out
     = alpha * bodyLineAngle raw + (1 - alpha) * bodyLineAngle prev
  /\ bodyLineConfidence out = bodyLineConfidence raw
  /\ positions out = positions raw
  /\ velocity out = velocity raw
  /\ stability out = stability raw
  /\ visibility_verdict out = visibility_verdict raw
  /\ timestamp out = timestamp raw
  /\ frameId out = frameId raw
  /\ cfg_smoothingFactor default_config = 1 / 10.
Proof.
  intros Hreach Hpos Hprev alpha raw out ema.
  assert (Happ : smoothingApplies e = true).
  { apply smoothingApplies_true. split; [assumption | now exists prev]. }
  assert (Hout : out = applySmoothing e raw).
  { unfold out. rewrite calculateFeatures_data. now rewrite Happ. }
  pose proof (reachable_alpha e Hreach) as Halpha. fold alpha in Halpha.
  destruct (applySmoothing_untouched e raw) as (U1 & U2 & U3 & U4 & U5 & U6 & U7).
  rewrite <- Hout in U1, U2, U3, U4, U5, U6, U7.
  assert (Hang : angles out = smoothAngles (angles raw) (angles prev) alpha
                 /\ bodyLineAngle out
                    = smoothValue (bodyLineAngle raw) (bodyLineAngle prev) alpha).
  { rewrite Hout. unfold applySmoothing. rewrite Hprev, Halpha. now split. }
  destruct Hang as [Hang Hline].
  split.
  { unfold ema. rewrite Hang. cbn. unfold smoothValue. repeat split. }
  split; [exact Hline|].
  repeat split; assumption || reflexivity.
Qed.

(** ** Reset *)

Lemma run_frame_config (e : FeatureEngine) (frame : R * Pose) :
  config (run_frame e frame) = config e.
Proof. reflexivity. Qed.

Lemma run_frames_config (frames : list (R * Pose)) (e : FeatureEngine) :
  config (run_frames e frames) = config e.
Proof.
  revert e. induction frames as [|fr frames IH]; intros e; [reflexivity|].
  unfold run_frames in *. simpl. rewrite IH. apply run_frame_config.
Qed.

Lemma run_frames_reachable (frames : list (R * Pose)) (e : FeatureEngine) :
  reachable e -> reachable (run_frames e frames).
Proof.
  revert e. induction frames as [|fr frames IH]; intros e He; [exact He|].
  unfold run_frames in *. simpl. apply IH. now apply reach_frame.
Qed.

(** With nothing stored, the raw features depend on the engine through its
    configuration only, and not on the clock. *)
Lemma rawFeatures_fresh (e1 e2 : FeatureEngine) (now1 now2 : R) (pose : Pose) :
  previousFeatures e1 = None -> previousFeatures e2 = None ->
  config e1 = config e2 ->
  rawFeatures e1 now1 pose = rawFeatures e2 now2 pose.
Proof.
  intros H1 H2 Hc. unfold rawFeatures, calculateVelocities, calculateStability.
  now rewrite H1, H2, Hc.
Qed.

(** C8: whatever frames were processed before, the first frame after
    [reset] has zero velocity, is returned unsmoothed, and is the same
    Features a brand-new engine with the same configuration returns. *)
Theorem C8_reset_no_leak (e : FeatureEngine) (history : list (R * Pose))
    (now : R) (pose : Pose) :
  let out := snd (calculateFeatures (reset (run_frames e history)) now pose) in
  velocity out = mkVelocity 0 0 0
  /\ out = rawFeatures (reset (run_frames e history)) now pose
  /\ out = snd (calculateFeatures
                  (mkFeatureEngine (config e) None
                                   (cfg_smoothingFactor (config e)))
                  now pose).
Proof.
  intros out.
  assert (Hraw : out = rawFeatures (reset (run_frames e history)) now pose)
    by (apply first_frame_raw; reflexivity).
  split; [|split].
  - rewrite Hraw. reflexivity.
  - exact Hraw.
  - rewrite Hraw, first_frame_raw by reflexivity.
    apply rawFeatures_fresh; try reflexivity.
    cbn [reset config]. apply run_frames_config.
Qed.

(** ** Angles from keypoints below the threshold *)

Lemma anyBelow_not_visible (kps : list Keypoint) :
  anyBelow kps -> areKeypointsVisible kps = false.
Proof. intros (k & Hin & Hlow). exact (not_visible_of_low kps k Hin Hlow). Qed.

Lemma hip_low (k : Keypoints) (s : Side) :
  anyBelow (legKeypoints k s) -> calculateHipAngle k s = 0.
Proof.
  intros H. unfold calculateHipAngle.
  fold (legKeypoints k s). now rewrite (anyBelow_not_visible _ H).
Qed.

Lemma knee_low (k : Keypoints) (s : Side) :
  anyBelow (legKeypoints k s) -> calculateKneeAngle k s = 0.
Proof.
  intros H. unfold calculateKneeAngle.
  fold (legKeypoints k s). now rewrite (anyBelow_not_visible _ H).
Qed.

Lemma shoulder_low (k : Keypoints) (s : Side) :
  anyBelow (shoulderKeypoints k s) -> calculateShoulderAngle k s = 0.
Proof.
  intros H. unfold calculateShoulderAngle.
  fold (shoulderKeypoints k s). now rewrite (anyBelow_not_visible _ H).
Qed.

Lemma elbow_low (k : Keypoints) (s : Side) :
  anyBelow (elbowKeypoints k s) -> calculateElbowAngle k s = 0.
Proof.
  intros H. unfold calculateElbowAngle.
  fold (elbowKeypoints k s). now rewrite (anyBelow_not_visible _ H).
Qed.

Lemma neck_low (k : Keypoints) :
  anyBelow (neckKeypoints k) -> calculateNeckAngle k = 0.
Proof.
  intros H. unfold calculateNeckAngle.
  fold (neckKeypoints k). now rewrite (anyBelow_not_visible _ H).
Qed.

Lemma bodyLineForSide_low (k : Keypoints) (s : Side) :
  anyBelow (bodyLineKeypoints k s) ->
  calculateBodyLineForSide k s = mkBodyLine 0 0.
Proof.
  intros H. unfold calculateBodyLineForSide.
  fold (bodyLineKeypoints k s). now rewrite (anyBelow_not_visible _ H).
Qed.

Lemma bodyLine_low (k : Keypoints) :
  anyBelow (bodyLineKeypoints k Left) -> anyBelow (bodyLineKeypoints k Right) ->
  calculateBodyLineStraightness k = mkBodyLine 0 0.
Proof.
  intros HL HR. unfold calculateBodyLineStraightness.
  rewrite (bodyLineForSide_low k Left HL), (bodyLineForSide_low k Right HR).
  now destruct (gtb _ _).
Qed.

(** Before smoothing, an angle whose keypoints are missing is 0. *)
Lemma raw_missing_zero (e : FeatureEngine) (now : R) (pose : Pose)
    (field : AngleField) :
  missingFor field (keypoints pose) ->
  fieldOf field (rawFeatures e now pose) = 0.
Proof.
  destruct field; cbn [missingFor fieldOf]; unfold rawFeatures;
    cbn [angles bodyLineAngle calculateJointAngles leftHip rightHip leftKnee
         rightKnee leftShoulder rightShoulder leftElbow rightElbow neck];
    intros H.
  - now apply hip_low.
  - now apply hip_low.
  - now apply knee_low.
  - now apply knee_low.
  - now apply shoulder_low.
  - now apply shoulder_low.
  - now apply elbow_low.
  - now apply elbow_low.
  - now apply neck_low.
  - destruct H as [HL HR]. now rewrite (bodyLine_low _ HL HR).
Qed.

Lemma fieldOf_smoothed (e : FeatureEngine) (f prev : Features)
    (field : AngleField) :
  previousFeatures e = Some prev ->
  fieldOf field (applySmoothing e f)
  = smoothValue (fieldOf field f) (fieldOf field prev) (smoothingFactor e).
Proof.
  intros H. unfold applySmoothing. rewrite H. now destruct field.
Qed.

Lemma INR_21 : INR (length all_keypoint_names) = 21.
Proof. simpl. lra. Qed.

Lemma overall_count (k : Keypoints) :
  overall (calculateVisibility k) = INR (visibleCount k) / 21.
Proof.
  rewrite <- INR_21. reflexivity.
Qed.

Lemma hasMinimumVisibility_iff (k : Keypoints) :
  hasMinimumVisibility (calculateVisibility k) = true
  <-> (11 <= visibleCount k)%nat.
Proof.
  assert (Hflag : hasMinimumVisibility (calculateVisibility k)
                  = geb (overall (calculateVisibility k)) (1 / 2))
    by reflexivity.
  rewrite Hflag, overall_count, geb_true.
  split; intros H.
  - apply INR_le. replace (INR 11) with 11 by (simpl; lra).
    assert (H2 : 21 / 2 <= INR (visibleCount k)) by lra.
    destruct (Nat.le_gt_cases 11 (visibleCount k)) as [Hle | Hlt].
    + apply le_INR in Hle. replace (INR 11) with 11 in Hle by (simpl; lra). lra.
    + assert (Hle : (visibleCount k <= 10)%nat) by lia.
      apply le_INR in Hle. replace (INR 10) with 10 in Hle by (simpl; lra). lra.
  - apply le_INR in H. replace (INR 11) with 11 in H by (simpl; lra). lra.
Qed.

Lemma magnitude_value (v : Vec2) (m : R) :
  0 <= m -> vx v * vx v + vy v * vy v = m * m -> magnitude v = m.
Proof. intros Hm H. unfold magnitude. rewrite H. now apply sqrt_square. Qed.

Lemma clamp_inside (lo hi a : R) : lo <= a <= hi -> clamp lo hi a = a.
Proof.
  intros [H1 H2]. unfold clamp.
  rewrite (Rmin_right hi a) by assumption. now apply Rmax_right.
Qed.

(** Perpendicular vectors are 90 degrees apart. *)
Lemma right_angle (v1 v2 : Vec2) :
  magnitude v1 <> 0 -> magnitude v2 <> 0 -> dotProduct v1 v2 = 0 ->
  calculateAngleBetweenVectors v1 v2 = 90.
Proof.
  intros H1 H2 Hd. rewrite angle_unfold.
  apply eqb_false in H1. apply eqb_false in H2. rewrite H1, H2. simpl.
  rewrite Hd. unfold Rdiv at 1. rewrite Rmult_0_l.
  rewrite clamp_inside by lra. rewrite acos_0. unfold degrees.
  field. apply PI_neq0.
Qed.

Lemma upright_leftHip : calculateHipAngle upright_keypoints Left = 90.
Proof.
  unfold calculateHipAngle, areKeypointsVisible, is_visible,
    VISIBILITY_THRESHOLD.
  cbn [hip_of knee_of ankle_of upright_keypoints kp x y confidence forallb].
  cmp. cbn [andb negb].
  apply right_angle.
  - rewrite (magnitude_value _ 30); [lra | lra | cbn [vx vy]; ring].
  - rewrite (magnitude_value _ 30); [lra | lra | cbn [vx vy]; ring].
  - unfold dotProduct; cbn [vx vy]. ring.
Qed.

Lemma better_same (k : Keypoint) : better k k = k.
Proof. unfold better. now destruct (gtb _ _). Qed.

Lemma blank_missing (field : AngleField) : missingFor field blank_keypoints.
Proof.
  assert (H : forall a b c, anyBelow [blank_keypoints a; blank_keypoints b;
                                      blank_keypoints c]).
  { intros a b c. exists (blank_keypoints a). split; [now left|]. simpl. lra. }
  destruct field; cbn [missingFor]; try split; try apply H.
  unfold neckKeypoints, neck_ear, neck_shoulder, neck_hip.
  change (blank_keypoints right_ear) with (blank_keypoints left_ear).
  change (blank_keypoints right_shoulder) with (blank_keypoints left_shoulder).
  change (blank_keypoints right_hip) with (blank_keypoints left_hip).
  rewrite !better_same. apply H.
Qed.

(** When smoothing is applied, a missing angle comes back as the stored
    previous one scaled by (1 - alpha). *)
Lemma smoothed_missing (e : FeatureEngine) (now : R) (pose : Pose)
    (field : AngleField) (prev : Features) :
  missingFor field (keypoints pose) ->
  smoothingApplies e = true -> previousFeatures e = Some prev ->
  fieldOf field (snd (calculateFeatures e now pose))
  = (1 - smoothingFactor e) * fieldOf field prev.
Proof.
  intros Hmiss Hs Hprev.
  rewrite calculateFeatures_data, Hs, (fieldOf_smoothed e _ prev field Hprev).
  rewrite (raw_missing_zero e now pose field Hmiss). unfold smoothValue. ring.
Qed.

(** C1, as the code has it: an angle (or body line) for which one of the
    three keypoints is below 0.6 is exactly 0 as computed, and is returned
    as 0 when no smoothing is applied (nothing stored yet, or a smoothing
    factor that is not positive); when smoothing is applied the returned
    field is (1 - alpha) times the stored previous one.  The flag
    hasMinimumVisibility is true exactly when at least 11 of the 21 named
    keypoints reach 0.6, whichever they are. *)
Theorem C1_missing_keypoint_angle (e : FeatureEngine) (now : R) (pose : Pose)
    (field : AngleField) :
  missingFor field (keypoints pose) ->
  let raw := rawFeatures e now pose in
  let out := snd (calculateFeatures e now pose) in
  fieldOf field raw = 0
  /\ (smoothingApplies e = false -> fieldOf field out = 0)
  /\ (forall prev, smoothingApplies e = true -> previousFeatures e = Some prev ->
        fieldOf field out = (1 - smoothingFactor e) * fieldOf field prev)
  /\ (hasMinimumVisibility (visibility_verdict out) = true
      <-> (11 <= visibleCount (keypoints pose))%nat).
Proof.
  intros Hmiss raw out.
  pose proof (raw_missing_zero e now pose field Hmiss) as Hraw. fold raw in Hraw.
  split; [exact Hraw|]. split; [|split].
  - intros Hs. unfold out. rewrite calculateFeatures_data, Hs. exact Hraw.
  - intros prev Hs Hprev. now apply smoothed_missing.
  - destruct (data_untouched e now pose) as (_ & _ & _ & _ & Hv & _).
    fold out in Hv. rewrite Hv. apply hasMinimumVisibility_iff.
Qed.

Lemma engine_after_upright_smooths : smoothingApplies engine_after_upright = true.
Proof.
  apply smoothingApplies_true. split.
  - simpl. lra.
  - eexists. apply engine_after_upright_prev.
Qed.

(** After one upright frame (left hip angle 90), a frame with no keypoint
    in sight returns a left hip angle of 81, not 0. *)
Lemma blank_after_upright_leftHip :
  leftHip (angles (snd (calculateFeatures engine_after_upright 1000
                                          (blank_pose 1000)))) = 81.
Proof.
  pose proof (smoothed_missing engine_after_upright 1000 (blank_pose 1000)
                FLeftHip _ (blank_missing FLeftHip)
                engine_after_upright_smooths engine_after_upright_prev) as H.
  cbn [fieldOf] in H. rewrite H.
  change (leftHip (angles (rawFeatures (constructor None) 0 (upright_pose 0))))
    with (calculateHipAngle upright_keypoints Left).
  rewrite upright_leftHip.
  change (smoothingFactor engine_after_upright) with (1 / 10). lra.
Qed.

(** On a fresh engine the missing angle of a blank frame is returned as 0. *)
Lemma C1_witness :
  missingFor FLeftHip (keypoints (blank_pose 0))
  /\ fieldOf FLeftHip (snd (calculateFeatures (constructor None) 0 (blank_pose 0)))
     = 0.
Proof.
  split; [apply blank_missing|].
  destruct (C1_missing_keypoint_angle (constructor None) 0 (blank_pose 0)
              FLeftHip (blank_missing FLeftHip)) as (_ & H & _).
  apply H. apply smoothingApplies_fresh. reflexivity.
Defined.

(** The specified property fails: the left hip, knee and ankle all have
    confidence 0 in the second frame, yet the returned left hip angle is
    not 0. *)
Lemma C1_counterexample :
  let out := snd (calculateFeatures engine_after_upright 1000 (blank_pose 1000)) in
  reachable engine_after_upright
  /\ missingFor FLeftHip (keypoints (blank_pose 1000))
  /\ fieldOf FLeftHip out = 81
  /\ fieldOf FLeftHip out <> 0.
Proof.
  cbv zeta. split; [apply reach_frame, reach_new|].
  split; [apply blank_missing|].
  cbn [fieldOf]. rewrite blank_after_upright_leftHip. split; lra.
Qed.

Lemma filter_cons_true {A} (f : A -> bool) (a : A) (l : list A) :
  f a = true -> filter f (a :: l) = a :: filter f l.
Proof. intros H. simpl. now rewrite H. Qed.

Lemma filter_cons_false {A} (f : A -> bool) (a : A) (l : list A) :
  f a = false -> filter f (a :: l) = filter f l.
Proof. intros H. simpl. now rewrite H. Qed.

(** The flag does not tell which keypoints are missing: with the left knee
    out of sight and the other twenty keypoints seen, the left hip angle is
    missing and the flag is true. *)
Lemma kneeless_flag :
  missingFor FLeftHip kneeless_keypoints
  /\ hasMinimumVisibility (calculateVisibility kneeless_keypoints) = true.
Proof.
  split.
  - exists (kneeless_keypoints left_knee). split; [right; now left|].
    simpl. lra.
  - apply hasMinimumVisibility_iff.
    assert (H : visibleCount kneeless_keypoints = 20%nat).
    { unfold all_keypoint_names.
      repeat first
        [ rewrite filter_cons_true by (apply geb_true; simpl; lra)
        | rewrite filter_cons_false by (apply geb_false; simpl; lra) ].
      reflexivity. }
    rewrite H. lia.
Qed.

(** ** Visibility *)

Lemma filter_all {A} (f : A -> bool) (l : list A) :
  (forall a, f a = true) -> filter f l = l.
Proof.
  intros H. induction l as [|a l IH]; simpl; [reflexivity|].
  now rewrite H, IH.
Qed.

Lemma filter_none {A} (f : A -> bool) (l : list A) :
  (forall a, f a = false) -> filter f l = [].
Proof.
  intros H. induction l as [|a l IH]; simpl; [reflexivity|].
  now rewrite H, IH.
Qed.

(** C9, as the code has it: the overall score is the number of named
    keypoints with confidence at least 0.6 (0.6 itself included) over the
    21 named keypoints, and the verdict also carries the mean confidences of
    the shoulders, the hips and the ankles; smoothing leaves the verdict as
    computed. *)
Theorem C9_visibility (e : FeatureEngine) (now : R) (pose : Pose) :
  let k := keypoints pose in
  let v := visibility_verdict (snd (calculateFeatures e now pose)) in
  overall v = INR (visibleCount k) / INR (length all_keypoint_names)
  /\ length all_keypoint_names = 21%nat
  /\ 0 <= overall v <= 1
  /\ shoulders (criticalPoints v)
     = (confidence (k left_shoulder) + confidence (k right_shoulder)) / 2
  /\ hips (criticalPoints v)
     = (confidence (k left_hip) + confidence (k right_hip)) / 2
  /\ ankles (criticalPoints v)
     = (confidence (k left_ankle) + confidence (k right_ankle)) / 2.
Proof.
  intros k v.
  destruct (data_untouched e now pose) as (_ & _ & _ & _ & Hv & _).
  unfold v. rewrite Hv. unfold rawFeatures; cbn [visibility_verdict].
  fold k. split; [rewrite overall_count, INR_21; reflexivity|].
  split; [reflexivity|].
  split; [|repeat split; reflexivity].
  rewrite overall_count.
  assert (Hle : (visibleCount k <= 21)%nat) by apply filter_length_le.
  apply le_INR in Hle. replace (INR 21) with 21 in Hle by (simpl; lra).
  pose proof (pos_INR (visibleCount k)). lra.
Qed.

(** With every keypoint at confidence exactly 0.6 the code reports an
    overall score of 1, while no keypoint is above 0.6. *)
Lemma C9_counterexample :
  let pose := mkPose threshold_keypoints 0 String.EmptyString 1 in
  let v := visibility_verdict (snd (calculateFeatures (constructor None) 0 pose)) in
  overall v = 1
  /\ INR (strictlyAboveCount (keypoints pose)) / INR (length all_keypoint_names) = 0
  /\ overall v
     <> INR (strictlyAboveCount (keypoints pose)) / INR (length all_keypoint_names).
Proof.
  cbv zeta.
  assert (H1 : overall (visibility_verdict
                 (snd (calculateFeatures (constructor None) 0
                         (mkPose threshold_keypoints 0 String.EmptyString 1))))
               = 1).
  { rewrite first_frame_raw by reflexivity.
    unfold rawFeatures; cbn [visibility_verdict keypoints].
    rewrite overall_count.
    rewrite filter_all.
    - rewrite INR_21. field.
    - intros a. apply geb_true. simpl. lra. }
  assert (H2 : INR (strictlyAboveCount threshold_keypoints)
               / INR (length all_keypoint_names) = 0).
  { unfold strictlyAboveCount. rewrite filter_none.
    - simpl. lra.
    - intros a. apply gtb_false. simpl. lra. }
  cbn [keypoints]. rewrite H1, H2. repeat split; lra.
Qed.

(** ** Positions *)

Lemma averageY_pair (a b : Keypoint) : averageY [a; b] = pairHeight a b.
Proof.
  unfold averageY, pairHeight. cbn [filter].
  destruct (is_visible a), (is_visible b); cbn; lra.
Qed.

Lemma positions_formula (k : Keypoints) :
  calculateBodyPositions k
  = mkPositions (pairHeight (k left_hip) (k right_hip))
                (pairHeight (k left_shoulder) (k right_shoulder))
                (pairHeight (k left_ear) (k right_ear))
                (soloHeight (k left_ankle))
                (soloHeight (k right_ankle)).
Proof.
  unfold calculateBodyPositions. now rewrite !averageY_pair.
Qed.

Lemma is_visible_same (a b : Keypoint) :
  confidence a = confidence b -> is_visible a = is_visible b.
Proof. unfold is_visible. now intros ->. Qed.

Lemma pairHeight_same (a1 b1 a2 b2 : Keypoint) :
  confidence a1 = confidence a2 -> confidence b1 = confidence b2 ->
  (6 / 10 <= confidence a1 -> y a1 = y a2) ->
  (6 / 10 <= confidence b1 -> y b1 = y b2) ->
  pairHeight a1 b1 = pairHeight a2 b2.
Proof.
  intros Ca Cb Ya Yb. unfold pairHeight.
  rewrite <- (is_visible_same a1 a2 Ca), <- (is_visible_same b1 b2 Cb).
  destruct (is_visible a1) eqn:Va, (is_visible b1) eqn:Vb;
    try apply is_visible_true in Va; try apply is_visible_true in Vb;
    try rewrite (Ya Va); try rewrite (Yb Vb); reflexivity.
Qed.

Lemma soloHeight_same (a1 a2 : Keypoint) :
  confidence a1 = confidence a2 ->
  (6 / 10 <= confidence a1 -> y a1 = y a2) ->
  soloHeight a1 = soloHeight a2.
Proof.
  intros Ca Ya. unfold soloHeight. rewrite <- (is_visible_same a1 a2 Ca).
  destruct (is_visible a1) eqn:Va; [|reflexivity].
  apply is_visible_true in Va. exact (Ya Va).
Qed.

Lemma positions_sameVisible (k1 k2 : Keypoints) :
  sameVisible k1 k2 -> calculateBodyPositions k1 = calculateBodyPositions k2.
Proof.
  intros H. rewrite !positions_formula.
  f_equal;
    (apply pairHeight_same || apply soloHeight_same);
    try apply H; intros Hv; now apply H.
Qed.

(** C10: each height of the returned Features is the mean y of those of
    its keypoints that reach 0.6 (both hips, both shoulders, both ears; the
    single ankle for an ankle height), and 0 when none does; the
    coordinates of a keypoint below 0.6 have no influence on any of them. *)
Theorem C10_positions (e : FeatureEngine) (now : R) (pose : Pose) :
  let k := keypoints pose in
  let p := positions (snd (calculateFeatures e now pose)) in
  hipHeight p = pairHeight (k left_hip) (k right_hip)
  /\ shoulderHeight p = pairHeight (k left_shoulder) (k right_shoulder)
  /\ headHeight p = pairHeight (k left_ear) (k right_ear)
  /\ leftAnkleHeight p = soloHeight (k left_ankle)
  /\ rightAnkleHeight p = soloHeight (k right_ankle)
  /\ (forall pose',
        sameVisible k (keypoints pose') ->
        positions (snd (calculateFeatures e now pose')) = p).
Proof.
  intros k p.
  assert (Hp : forall q, positions (snd (calculateFeatures e now q))
                         = calculateBodyPositions (keypoints q)).
  { intros q. destruct (data_untouched e now q) as (_ & Hq & _).
    rewrite Hq. reflexivity. }
  unfold p. rewrite Hp. fold k. rewrite positions_formula.
  repeat split; try reflexivity.
  intros pose' Hsame. rewrite Hp, <- positions_formula. symmetry.
  now apply positions_sameVisible.
Qed.

Lemma stray_sameVisible : sameVisible hidden_hip_keypoints stray_hip_keypoints.
Proof.
  intros name. destruct name; simpl; split; try reflexivity;
    intros H; try (split; reflexivity); lra.
Qed.

(** A left hip at confidence 0.5 does not move the hip height, wherever it
    is reported: the height is the right hip's, 54. *)
Lemma C10_witness :
  sameVisible hidden_hip_keypoints stray_hip_keypoints
  /\ hipHeight (positions (snd (calculateFeatures (constructor None) 0
                   (mkPose stray_hip_keypoints 0 String.EmptyString 1))))
     = 54.
Proof.
  split; [apply stray_sameVisible|].
  destruct (C10_positions (constructor None) 0
              (mkPose hidden_hip_keypoints 0 String.EmptyString 1))
    as (Hh & _ & _ & _ & _ & Hind).
  rewrite (Hind (mkPose stray_hip_keypoints 0 String.EmptyString 1)
                stray_sameVisible).
  rewrite Hh. cbn [keypoints hidden_hip_keypoints upright_keypoints].
  unfold pairHeight, is_visible, VISIBILITY_THRESHOLD, kp. cbn [confidence y].
  cmp. reflexivity.
Defined.

(** ** Body line *)

Lemma bodyLineForSide_visible (k : Keypoints) (s : Side) :
  areKeypointsVisible (bodyLineKeypoints k s) = true ->
  calculateBodyLineForSide k s = mkBodyLine (sideAngle k s) (meanConfidence k s).
Proof.
  intros H. unfold calculateBodyLineForSide.
  fold (bodyLineKeypoints k s). now rewrite H.
Qed.

Lemma visible_mean (k : Keypoints) (s : Side) :
  areKeypointsVisible (bodyLineKeypoints k s) = true ->
  6 / 10 <= meanConfidence k s.
Proof.
  intros H. rewrite visible_all in H. unfold meanConfidence.
  pose proof (H (k (shoulder_of s)) (or_introl eq_refl)).
  pose proof (H (k (hip_of s)) (or_intror (or_introl eq_refl))).
  pose proof (H (k (ankle_of s)) (or_intror (or_intror (or_introl eq_refl)))).
  lra.
Qed.

Lemma not_visible_anyBelow (kps : list Keypoint) :
  areKeypointsVisible kps = false -> anyBelow kps.
Proof.
  unfold areKeypointsVisible. induction kps as [|a l IH]; simpl.
  - discriminate.
  - destruct (is_visible a) eqn:Va; simpl.
    + intros H. destruct (IH H) as (q & Hin & Hq). exists q. split; [now right | exact Hq].
    + intros _. exists a. split; [now left | now apply is_visible_false].
Qed.

(** C6, as the code has it: a side counts only when its shoulder, hip and
    ankle all reach 0.6, and its angle is then atan2(dx, dy) in degrees
    from shoulder to ankle with the mean of the three confidences as its
    confidence.  With both sides in sight the left side is used when its
    mean confidence is strictly the higher, the right side otherwise, equal
    means included; with one side in sight that side is used; with none the
    angle and the confidence are 0. *)
Theorem C6_body_line (k : Keypoints) :
  let out := calculateBodyLineStraightness k in
  let seen s := areKeypointsVisible (bodyLineKeypoints k s) = true in
  let side s := mkBodyLine (sideAngle k s) (meanConfidence k s) in
  (seen Left -> seen Right ->
   meanConfidence k Right < meanConfidence k Left -> out = side Left)
  /\ (seen Left -> seen Right ->
      meanConfidence k Left <= meanConfidence k Right -> out = side Right)
  /\ (seen Left -> ~ seen Right -> out = side Left)
  /\ (~ seen Left -> seen Right -> out = side Right)
  /\ (~ seen Left -> ~ seen Right -> out = mkBodyLine 0 0).
Proof.
  intros out seen side. unfold out, calculateBodyLineStraightness, seen, side.
  repeat split.
  - intros HL HR Hlt.
    rewrite (bodyLineForSide_visible k Left HL), (bodyLineForSide_visible k Right HR).
    cbn [bl_confidence]. apply gtb_true in Hlt. now rewrite Hlt.
  - intros HL HR Hle.
    rewrite (bodyLineForSide_visible k Left HL), (bodyLineForSide_visible k Right HR).
    cbn [bl_confidence]. apply gtb_false in Hle. now rewrite Hle.
  - intros HL HR. apply not_true_is_false, not_visible_anyBelow in HR.
    pose proof (visible_mean k Left HL) as Hm.
    rewrite (bodyLineForSide_visible k Left HL), (bodyLineForSide_low k Right HR).
    cbn [bl_confidence].
    assert (Hg : gtb (meanConfidence k Left) 0 = true) by (apply gtb_true; lra).
    now rewrite Hg.
  - intros HL HR. apply not_true_is_false, not_visible_anyBelow in HL.
    pose proof (visible_mean k Right HR) as Hm.
    rewrite (bodyLineForSide_low k Left HL), (bodyLineForSide_visible k Right HR).
    cbn [bl_confidence].
    assert (Hg : gtb 0 (meanConfidence k Right) = false) by (apply gtb_false; lra).
    now rewrite Hg.
  - intros HL HR. apply not_true_is_false, not_visible_anyBelow in HL.
    apply not_true_is_false, not_visible_anyBelow in HR.
    now apply bodyLine_low.
Qed.

Lemma tie_seen (s : Side) :
  areKeypointsVisible (bodyLineKeypoints tie_keypoints s) = true.
Proof.
  apply visible_all. intros q Hin.
  destruct s; cbn in Hin;
    repeat (destruct Hin as [<- | Hin]; [simpl; lra|]); contradiction.
Qed.

Lemma tie_means :
  meanConfidence tie_keypoints Left = meanConfidence tie_keypoints Right.
Proof. unfold meanConfidence. simpl. lra. Qed.

Lemma tie_angles :
  sideAngle tie_keypoints Left = 45 /\ sideAngle tie_keypoints Right = 0.
Proof.
  unfold sideAngle, degrees, Math_atan2. simpl. split.
  - replace (1 - 0) with 1 by ring.
    destruct (Rlt_dec 0 1) as [_ | H]; [|lra].
    replace (1 / 1) with 1 by field. rewrite atan_1. field. apply PI_neq0.
  - replace (0 - 0) with 0 by ring. replace (1 - 0) with 1 by ring.
    destruct (Rlt_dec 0 1) as [_ | H]; [|lra].
    replace (0 / 1) with 0 by field. rewrite atan_0. ring.
Qed.

(** On equal means the right side is used. *)
Lemma C6_witness :
  areKeypointsVisible (bodyLineKeypoints tie_keypoints Left) = true
  /\ areKeypointsVisible (bodyLineKeypoints tie_keypoints Right) = true
  /\ meanConfidence tie_keypoints Left <= meanConfidence tie_keypoints Right
  /\ calculateBodyLineStraightness tie_keypoints
     = mkBodyLine (sideAngle tie_keypoints Right)
                  (meanConfidence tie_keypoints Right).
Proof.
  assert (Hle : meanConfidence tie_keypoints Left
                <= meanConfidence tie_keypoints Right)
    by (rewrite tie_means; lra).
  split; [apply tie_seen|]. split; [apply tie_seen|]. split; [exact Hle|].
  destruct (C6_body_line tie_keypoints) as (_ & H & _).
  exact (H (tie_seen Left) (tie_seen Right) Hle).
Defined.

Lemma tie_result :
  calculateBodyLineStraightness tie_keypoints
  = mkBodyLine 0 (meanConfidence tie_keypoints Right).
Proof.
  unfold calculateBodyLineStraightness.
  rewrite (bodyLineForSide_visible _ Left (tie_seen Left)),
    (bodyLineForSide_visible _ Right (tie_seen Right)).
  cbn [bl_confidence].
  assert (Hg : gtb (meanConfidence tie_keypoints Left)
                   (meanConfidence tie_keypoints Right) = false)
    by (apply gtb_false; rewrite tie_means; lra).
  rewrite Hg. now rewrite (proj2 tie_angles).
Qed.

(** Both sides are in sight with equal mean confidence and the left ankle
    is the more confident one, so the rule of the specification selects
    the left side, whose line leans 45 degrees; the code returns the right
    side's angle, 0. *)
Lemma C6_counterexample :
  meanConfidence tie_keypoints Left = meanConfidence tie_keypoints Right
  /\ confidence (tie_keypoints right_ankle) < confidence (tie_keypoints left_ankle)
  /\ specifiedSide tie_keypoints = Some Left
  /\ sideAngle tie_keypoints Left = 45
  /\ bl_angle (calculateBodyLineStraightness tie_keypoints) = 0
  /\ bl_angle (calculateBodyLineStraightness tie_keypoints)
     <> sideAngle tie_keypoints Left.
Proof.
  split; [apply tie_means|]. split; [simpl; lra|].
  split.
  { unfold specifiedSide. rewrite tie_means.
    assert (H1 : gtb (meanConfidence tie_keypoints Right)
                     (meanConfidence tie_keypoints Right) = false)
      by (apply gtb_false; lra).
    rewrite H1.
    assert (H2 : gtb (confidence (tie_keypoints left_ankle))
                     (confidence (tie_keypoints right_ankle)) = true)
      by (apply gtb_true; simpl; lra).
    now rewrite H2. }
  split; [apply tie_angles|].
  rewrite tie_result, (proj1 tie_angles). cbn [bl_angle]. split; lra.
Qed.

(** ** Totality: the run-time layer on well-typed poses *)

Section WellTyped.

Variable jk : Runtime.JsKeypoints.
Variable k : Keypoints.
Hypothesis present : forall name, jk name = Some (k name).

Lemma rt_visible (l : list Keypoint) :
  Runtime.areKeypointsVisible (map Some l) = Runtime.Normal (areKeypointsVisible l).
Proof.
  induction l as [|a l IH]; [reflexivity|].
  cbn [map Runtime.areKeypointsVisible Runtime.deref Runtime.bind].
  unfold areKeypointsVisible in *. cbn [forallb].
  unfold is_visible at 1, VISIBILITY_THRESHOLD.
  destruct (geb (confidence a) (6 / 10)); [exact IH | reflexivity].
Qed.

Lemma rt_visible3 (a b c : Keypoint) :
  Runtime.areKeypointsVisible [Some a; Some b; Some c]
  = Runtime.Normal (areKeypointsVisible [a; b; c]).
Proof. exact (rt_visible [a; b; c]). Qed.

Lemma rt_hip (s : Side) :
  Runtime.calculateHipAngle jk s = Runtime.Normal (calculateHipAngle k s).
Proof.
  unfold Runtime.calculateHipAngle, calculateHipAngle.
  rewrite !present, rt_visible3. cbn [Runtime.bind].
  now destruct (areKeypointsVisible _).
Qed.

Lemma rt_knee (s : Side) :
  Runtime.calculateKneeAngle jk s = Runtime.Normal (calculateKneeAngle k s).
Proof.
  unfold Runtime.calculateKneeAngle, calculateKneeAngle.
  rewrite !present, rt_visible3. cbn [Runtime.bind].
  now destruct (areKeypointsVisible _).
Qed.

Lemma rt_shoulder (s : Side) :
  Runtime.calculateShoulderAngle jk s
  = Runtime.Normal (calculateShoulderAngle k s).
Proof.
  unfold Runtime.calculateShoulderAngle, calculateShoulderAngle.
  rewrite !present, rt_visible3. cbn [Runtime.bind].
  now destruct (areKeypointsVisible _).
Qed.

Lemma rt_elbow (s : Side) :
  Runtime.calculateElbowAngle jk s = Runtime.Normal (calculateElbowAngle k s).
Proof.
  unfold Runtime.calculateElbowAngle, calculateElbowAngle.
  rewrite !present, rt_visible3. cbn [Runtime.bind].
  now destruct (areKeypointsVisible _).
Qed.

Lemma rt_better (a b : Keypoint) :
  Runtime.better (Some a) (Some b) = Runtime.Normal (Some (better a b)).
Proof.
  unfold Runtime.better, better. cbn. now destruct (gtb _ _).
Qed.

Lemma rt_neck :
  Runtime.calculateNeckAngle jk = Runtime.Normal (calculateNeckAngle k).
Proof.
  unfold Runtime.calculateNeckAngle, calculateNeckAngle,
    neck_ear, neck_shoulder, neck_hip.
  rewrite !present, !rt_better. cbn [Runtime.bind].
  rewrite rt_visible3. cbn [Runtime.bind].
  now destruct (areKeypointsVisible _).
Qed.

Lemma rt_jointAngles :
  Runtime.calculateJointAngles jk = Runtime.Normal (calculateJointAngles k).
Proof.
  unfold Runtime.calculateJointAngles.
  now rewrite !rt_hip, !rt_knee, !rt_shoulder, !rt_elbow, rt_neck.
Qed.

Lemma rt_bodyLineForSide (s : Side) :
  Runtime.calculateBodyLineForSide jk s
  = Runtime.Normal (calculateBodyLineForSide k s).
Proof.
  unfold Runtime.calculateBodyLineForSide, calculateBodyLineForSide.
  rewrite !present, rt_visible3. cbn [Runtime.bind].
  now destruct (areKeypointsVisible _).
Qed.

Lemma rt_bodyLine :
  Runtime.calculateBodyLineStraightness jk
  = Runtime.Normal (calculateBodyLineStraightness k).
Proof.
  unfold Runtime.calculateBodyLineStraightness.
  now rewrite !rt_bodyLineForSide.
Qed.

Lemma rt_filterVisible (l : list Keypoint) :
  Runtime.filterVisible (map Some l) = Runtime.Normal (filter is_visible l).
Proof.
  induction l as [|a l IH]; [reflexivity|].
  cbn [map Runtime.filterVisible Runtime.deref Runtime.bind filter].
  rewrite IH. reflexivity.
Qed.

Lemma rt_averageY (a b : Keypoint) :
  Runtime.averageY [Some a; Some b] = Runtime.Normal (averageY [a; b]).
Proof.
  unfold Runtime.averageY, averageY.
  change [Some a; Some b] with (map Some [a; b]).
  rewrite rt_filterVisible. cbn [Runtime.bind].
  now destruct (Nat.eqb _ _).
Qed.

Lemma rt_positions :
  Runtime.calculateBodyPositions jk
  = Runtime.Normal (calculateBodyPositions k).
Proof.
  unfold Runtime.calculateBodyPositions, Runtime.ankleHeight.
  now rewrite !present, !rt_averageY.
Qed.

Lemma rt_keys : Runtime.Object_keys jk = all_keypoint_names.
Proof.
  unfold Runtime.Object_keys. apply filter_all.
  intros name. now rewrite present.
Qed.

Lemma rt_visible_names :
  filter (fun name =>
            match jk name with
            | Some q => geb (confidence q) (6 / 10)
            | None => false
            end) all_keypoint_names
  = filter (fun name => geb (confidence (k name)) (6 / 10)) all_keypoint_names.
Proof. apply filter_ext. intros name. now rewrite present. Qed.

Lemma rt_visibility :
  Runtime.calculateVisibility jk = Runtime.Normal (calculateVisibility k).
Proof.
  unfold Runtime.calculateVisibility, Runtime.pairMean, calculateVisibility.
  rewrite rt_keys, rt_visible_names, !present.
  reflexivity.
Qed.

End WellTyped.

Lemma wellTyped_present (jk : Runtime.JsKeypoints) :
  Runtime.wellTyped jk -> forall name, jk name = Some (Runtime.typed jk name).
Proof.
  intros H name. unfold Runtime.typed. specialize (H name).
  now destruct (jk name).
Qed.

Lemma rt_tryBlock (e : FeatureEngine) (now : R) (pose : Runtime.JsPose) :
  Runtime.wellTyped (Runtime.js_keypoints pose) ->
  Runtime.tryBlock e now pose
  = Runtime.Normal (calculateFeatures e now (Runtime.typedPose pose)).
Proof.
  intros H. pose proof (wellTyped_present _ H) as Hp.
  unfold Runtime.tryBlock.
  rewrite (rt_jointAngles _ _ Hp), (rt_bodyLine _ _ Hp), (rt_positions _ _ Hp),
    (rt_visibility _ _ Hp).
  reflexivity.
Qed.

(** C2: on every pose that inhabits its type (all 21 keypoints present,
    whatever their confidence) the [try] block of calculateFeatures
    completes normally, so the response has success = true and the [catch]
    branch is not taken; each angle helper returns 0 without throwing when
    a keypoint it needs is below 0.6. *)
Theorem C2_total (e : FeatureEngine) (now tret : R) (pose : Runtime.JsPose) :
  Runtime.wellTyped (Runtime.js_keypoints pose) ->
  let jk := Runtime.js_keypoints pose in
  let k := Runtime.typed jk in
  let r := Runtime.calculateFeatures e now tret pose in
  (forall err, Runtime.tryBlock e now pose <> Runtime.Throw err)
  /\ Runtime.success (snd r) = true
  /\ r = (fst (calculateFeatures e now (Runtime.typedPose pose)),
          Runtime.Success (snd (calculateFeatures e now (Runtime.typedPose pose)))
                          tret)
  /\ (forall s, anyBelow (legKeypoints k s) ->
        Runtime.calculateHipAngle jk s = Runtime.Normal 0
        /\ Runtime.calculateKneeAngle jk s = Runtime.Normal 0)
  /\ (forall s, anyBelow (shoulderKeypoints k s) ->
        Runtime.calculateShoulderAngle jk s = Runtime.Normal 0)
  /\ (forall s, anyBelow (elbowKeypoints k s) ->
        Runtime.calculateElbowAngle jk s = Runtime.Normal 0)
  /\ (anyBelow (neckKeypoints k) ->
        Runtime.calculateNeckAngle jk = Runtime.Normal 0)
  /\ (forall s, anyBelow (bodyLineKeypoints k s) ->
        Runtime.calculateBodyLineForSide jk s
        = Runtime.Normal (mkBodyLine 0 0)).
Proof.
  intros H jk k r.
  pose proof (wellTyped_present _ H) as Hp. fold jk in Hp. fold k in Hp.
  pose proof (rt_tryBlock e now pose H) as Htry.
  assert (Hr : r = (fst (calculateFeatures e now (Runtime.typedPose pose)),
                    Runtime.Success
                      (snd (calculateFeatures e now (Runtime.typedPose pose)))
                      tret)).
  { unfold r, Runtime.calculateFeatures. rewrite Htry.
    now destruct (calculateFeatures e now (Runtime.typedPose pose)). }
  split; [intros err; rewrite Htry; discriminate|].
  split; [now rewrite Hr|]. split; [exact Hr|].
  split; [intros s Hlow; split|]; [| |split; [|split; [|split]]].
  - rewrite (rt_hip jk k Hp). f_equal. now apply hip_low.
  - rewrite (rt_knee jk k Hp). f_equal. now apply knee_low.
  - intros s Hlow. rewrite (rt_shoulder jk k Hp). f_equal. now apply shoulder_low.
  - intros s Hlow. rewrite (rt_elbow jk k Hp). f_equal. now apply elbow_low.
  - intros Hlow. rewrite (rt_neck jk k Hp). f_equal. now apply neck_low.
  - intros s Hlow. rewrite (rt_bodyLineForSide jk k Hp). f_equal.
    now apply bodyLineForSide_low.
Qed.

Lemma blank_js_wellTyped (t : R) :
  Runtime.wellTyped (Runtime.js_keypoints (blank_js_pose t)).
Proof. intros name. discriminate. Qed.

(** The pose with every keypoint at confidence 0 on a fresh engine. *)
Lemma C2_witness :
  Runtime.wellTyped (Runtime.js_keypoints (blank_js_pose 0))
  /\ Runtime.success
       (snd (Runtime.calculateFeatures (constructor None) 0 0 (blank_js_pose 0)))
     = true.
Proof.
  split; [apply blank_js_wellTyped|].
  exact (proj1 (proj2 (C2_total (constructor None) 0 0 (blank_js_pose 0)
                                (blank_js_wellTyped 0)))).
Defined.

(** The [catch] branch is there for objects outside the type: without a
    [left_hip] property the first angle helper throws, the response has
    success = false and the engine is left as it was. *)
Lemma missing_property_caught (e : FeatureEngine) (now tret : R) :
  Runtime.calculateFeatures e now tret hipless_js_pose
  = (e, Runtime.Failure
          (Runtime.mkAppError Runtime.pose_estimation_failed Runtime.TypeError
                              tret true) tret).
Proof. reflexivity. Qed.

(** After one upright frame, a blank frame returns the left hip angle
    0.1 * 0 + 0.9 * 90. *)
Lemma C7_witness :
  reachable engine_after_upright
  /\ 0 < cfg_smoothingFactor (config engine_after_upright)
  /\ leftHip (angles (snd (calculateFeatures engine_after_upright 1000
                                             (blank_pose 1000))))
     = 1 / 10 * 0 + (1 - 1 / 10) * 90.
Proof.
  assert (Hr : reachable engine_after_upright) by apply reach_frame, reach_new.
  assert (Ha : 0 < cfg_smoothingFactor (config engine_after_upright))
    by (simpl; lra).
  split; [exact Hr|]. split; [exact Ha|].
  destruct (C7_smoothing engine_after_upright 1000 (blank_pose 1000) _
              Hr Ha engine_after_upright_prev) as ((H & _) & _).
  rewrite H.
  change (leftHip (angles (rawFeatures (constructor None) 0 (upright_pose 0))))
    with (calculateHipAngle upright_keypoints Left).
  rewrite upright_leftHip.
  change (leftHip (angles (rawFeatures engine_after_upright 1000
                                       (blank_pose 1000))))
    with (fieldOf FLeftHip (rawFeatures engine_after_upright 1000
                                        (blank_pose 1000))).
  rewrite (raw_missing_zero engine_after_upright 1000 (blank_pose 1000)
             FLeftHip (blank_missing FLeftHip)).
  reflexivity.
Defined.

(** * Further properties of the feature engine *)

(** ** The angle depends on the two directions only *)













(** ** Knee and hip angles *)

Lemma angle_opposite_pair (a b c d : R) :
  calculateAngleBetweenVectors (mkVec2 (- a) (- b)) (mkVec2 (- c) (- d))
  = calculateAngleBetweenVectors (mkVec2 a b) (mkVec2 c d).
Proof.
  rewrite !angle_unfold.
  assert (M : forall p q, magnitude (mkVec2 (- p) (- q)) = magnitude (mkVec2 p q)).
  { intros p q. unfold magnitude; cbn [vx vy]. f_equal. ring. }
  assert (D : dotProduct (mkVec2 (- a) (- b)) (mkVec2 (- c) (- d))
              = dotProduct (mkVec2 a b) (mkVec2 c d)).
  { unfold dotProduct; cbn [vx vy]. ring. }
  now rewrite !M, D.
Qed.

(** Both helpers measure the angle at the knee between hip and ankle. *)
Lemma knee_is_hip (k : Keypoints) (s : Side) :
  calculateKneeAngle k s = calculateHipAngle k s.
Proof.
  unfold calculateKneeAngle, calculateHipAngle.
  destruct (negb (areKeypointsVisible _)); [reflexivity|].
  rewrite <- angle_opposite_pair. f_equal; f_equal; ring.
Qed.

Lemma raw_kneeHipAgree (k : Keypoints) : kneeHipAgree (calculateJointAngles k).
Proof. split; apply knee_is_hip. Qed.

Lemma smooth_kneeHipAgree (cur prev : Angles) (alpha : R) :
  kneeHipAgree cur -> kneeHipAgree prev ->
  kneeHipAgree (smoothAngles cur prev alpha).
Proof.
  intros [C1 C2] [P1 P2]. split; cbn; now rewrite ?C1, ?C2, ?P1, ?P2.
Qed.

Lemma frame_kneeHipAgree (e : FeatureEngine) (now : R) (pose : Pose) :
  (forall prev, previousFeatures e = Some prev -> kneeHipAgree (angles prev)) ->
  kneeHipAgree (angles (snd (calculateFeatures e now pose))).
Proof.
  intros Hprev. rewrite calculateFeatures_data.
  destruct (smoothingApplies e); [|apply raw_kneeHipAgree].
  unfold applySmoothing. destruct (previousFeatures e) as [prev|].
  - cbn [angles]. apply smooth_kneeHipAgree; [apply raw_kneeHipAgree | now apply Hprev].
  - apply raw_kneeHipAgree.
Qed.

Lemma reachable_kneeHipAgree (e : FeatureEngine) :
  reachable e ->
  forall prev, previousFeatures e = Some prev -> kneeHipAgree (angles prev).
Proof.
  induction 1; cbn [previousFeatures constructor updateConfig reset];
    intros prev Hp; try discriminate; auto.
  rewrite calculateFeatures_state in Hp. cbn [previousFeatures] in Hp.
  injection Hp as <-. now apply frame_kneeHipAgree.
Qed.

(** X3: in every Features the engine returns, the knee angle of a side is
    equal to the hip angle of that side: both are the angle at the knee
    between hip and ankle, and smoothing treats them alike. *)
Theorem X3_knee_equals_hip (e : FeatureEngine) (now : R) (pose : Pose) :
  reachable e ->
  let out := snd (calculateFeatures e now pose) in
  leftKnee (angles out) = leftHip (angles out)
  /\ rightKnee (angles out) = rightHip (angles out).
Proof.
  intros He out. apply frame_kneeHipAgree. now apply reachable_kneeHipAgree.
Qed.

Lemma X3_witness :
  reachable engine_after_upright
  /\ leftKnee (angles (snd (calculateFeatures engine_after_upright 1000
                                              (blank_pose 1000))))
     = leftHip (angles (snd (calculateFeatures engine_after_upright 1000
                                               (blank_pose 1000)))).
Proof.
  assert (Hr : reachable engine_after_upright) by apply reach_frame, reach_new.
  split; [exact Hr|].
  exact (proj1 (X3_knee_equals_hip engine_after_upright 1000 (blank_pose 1000) Hr)).
Defined.

(** ** Moving the whole pose *)












(** ** Ranges *)

Lemma angle_in_range (v1 v2 : Vec2) :
  0 <= calculateAngleBetweenVectors v1 v2 <= 180.
Proof.
  rewrite angle_unfold.
  destruct (eqb (magnitude v1) 0 || eqb (magnitude v2) 0); [lra|].
  apply degrees_range, acos_bound.
Qed.

Lemma raw_anglesInRange (k : Keypoints) : anglesInRange (calculateJointAngles k).
Proof.
  unfold anglesInRange, calculateJointAngles;
  cbn [leftHip rightHip leftKnee rightKnee leftShoulder rightShoulder
       leftElbow rightElbow neck].
  unfold calculateHipAngle, calculateKneeAngle, calculateShoulderAngle,
    calculateElbowAngle, calculateNeckAngle.
  repeat match goal with |- (_ <= _ <= _) /\ _ => split end;
    match goal with
    | |- context [if ?c then _ else _] => destruct c
    end; try lra; apply angle_in_range.
Qed.

Lemma smoothValue_between (lo hi cur prev alpha : R) :
  0 <= alpha <= 1 -> lo <= cur <= hi -> lo <= prev <= hi ->
  lo <= smoothValue cur prev alpha <= hi.
Proof. intros Ha Hc Hp. unfold smoothValue. split; nra. Qed.

Lemma smooth_anglesInRange (cur prev : Angles) (alpha : R) :
  0 <= alpha <= 1 -> anglesInRange cur -> anglesInRange prev ->
  anglesInRange (smoothAngles cur prev alpha).
Proof.
  intros Ha (C1 & C2 & C3 & C4 & C5 & C6 & C7 & C8 & C9)
         (P1 & P2 & P3 & P4 & P5 & P6 & P7 & P8 & P9).
  unfold anglesInRange, smoothAngles;
  cbn [leftHip rightHip leftKnee rightKnee leftShoulder rightShoulder
       leftElbow rightElbow neck].
  repeat match goal with |- (_ <= _ <= _) /\ _ => split end;
    apply smoothValue_between; assumption.
Qed.

Lemma frame_anglesInRange (e : FeatureEngine) (now : R) (pose : Pose) :
  smoothingFactor e = cfg_smoothingFactor (config e) ->
  cfg_smoothingFactor (config e) <= 1 ->
  (forall prev, previousFeatures e = Some prev -> anglesInRange (angles prev)) ->
  anglesInRange (angles (snd (calculateFeatures e now pose))).
Proof.
  intros Hsync Hle Hprev. rewrite calculateFeatures_data.
  destruct (smoothingApplies e) eqn:Hs; [|apply raw_anglesInRange].
  apply smoothingApplies_true in Hs. destruct Hs as [Hpos [prev Hp]].
  unfold applySmoothing. rewrite Hp. cbn [angles].
  apply smooth_anglesInRange.
  - rewrite Hsync. lra.
  - apply raw_anglesInRange.
  - now apply Hprev.
Qed.

Lemma run_frames_anglesInRange (frames : list (R * Pose)) (e : FeatureEngine) :
  smoothingFactor e = cfg_smoothingFactor (config e) ->
  cfg_smoothingFactor (config e) <= 1 ->
  (forall prev, previousFeatures e = Some prev -> anglesInRange (angles prev)) ->
  let e' := run_frames e frames in
  smoothingFactor e' = cfg_smoothingFactor (config e')
  /\ cfg_smoothingFactor (config e') <= 1
  /\ (forall prev, previousFeatures e' = Some prev ->
        anglesInRange (angles prev)).
Proof.
  revert e. induction frames as [|[now pose] frames IH]; intros e Hs Hle Hp.
  - cbv zeta. change (run_frames e []) with e. auto.
  - change (run_frames e ((now, pose) :: frames))
      with (run_frames (fst (calculateFeatures e now pose)) frames).
    apply IH; rewrite calculateFeatures_state;
      cbn [config smoothingFactor previousFeatures].
    + exact Hs.
    + exact Hle.
    + intros prev H. injection H as <-. now apply frame_anglesInRange.
Qed.

(** X5: an engine constructed with a smoothing factor of at most 1 (0.1 by
    default) returns, after any sequence of frames, nine joint angles that
    all lie in [0, 180]. *)
Theorem X5_angles_stay_in_range (cfg : option PartialFeatureConfig)
    (frames : list (R * Pose)) (now : R) (pose : Pose) :
  cfg_smoothingFactor (config (constructor cfg)) <= 1 ->
  anglesInRange
    (angles (snd (calculateFeatures (run_frames (constructor cfg) frames)
                                    now pose))).
Proof.
  intros Hle.
  destruct (run_frames_anglesInRange frames (constructor cfg))
    as (Hs & Hl & Hp); try assumption.
  - reflexivity.
  - intros prev H. discriminate.
  - now apply frame_anglesInRange.
Qed.

Lemma X5_witness :
  cfg_smoothingFactor (config (constructor None)) <= 1
  /\ anglesInRange
       (angles (snd (calculateFeatures
                       (run_frames (constructor None) [(0, upright_pose 0)])
                       1000 (blank_pose 1000)))).
Proof.
  assert (H : cfg_smoothingFactor (config (constructor None)) <= 1)
    by (simpl; lra).
  split; [exact H|].
  exact (X5_angles_stay_in_range None [(0, upright_pose 0)] 1000
                                 (blank_pose 1000) H).
Defined.

Lemma atan2_range (b a : R) : - PI < Math_atan2 b a <= PI.
Proof.
  pose proof PI_RGT_0 as Hpi. pose proof (atan_bound (b / a)) as [Hl Hu].
  unfold Math_atan2.
  destruct (Rlt_dec 0 a) as [Ha | Ha]; [lra|].
  destruct (Rlt_dec a 0) as [Ha' | Ha'].
  - assert (Hinv : / a < 0) by now apply Rinv_lt_0_compat.
    destruct (Rle_dec 0 b) as [Hb | Hb].
    + assert (Hq : b / a <= 0) by (unfold Rdiv; nra).
      assert (atan (b / a) <= 0).
      { destruct Hq as [Hq | Hq].
        - left. rewrite <- atan_0. now apply atan_increasing.
        - rewrite Hq, atan_0. lra. }
      lra.
    + assert (Hq : 0 < b / a) by (unfold Rdiv; nra).
      assert (0 < atan (b / a))
        by (rewrite <- atan_0; now apply atan_increasing).
      lra.
  - destruct (Rlt_dec 0 b); [lra|]. destruct (Rlt_dec b 0); lra.
Qed.

Lemma degrees_open_range (a : R) : - PI < a <= PI -> -180 < degrees a <= 180.
Proof.
  intros [H0 H1]. pose proof PI_RGT_0 as Hpi.
  assert (HP : 0 < 180 / PI) by (apply Rdiv_lt_0_compat; lra).
  assert (E : degrees PI = 180) by apply degrees_PI.
  assert (E' : degrees (- PI) = -180) by (unfold degrees in *; lra).
  unfold degrees in *. split; nra.
Qed.

Lemma bodyLineForSide_cases (k : Keypoints) (s : Side) :
  let b := calculateBodyLineForSide k s in
  (b = mkBodyLine 0 0
   \/ (6 / 10 <= bl_confidence b /\ bl_angle b = sideAngle k s))
  /\ -180 < bl_angle b <= 180.
Proof.
  cbv zeta.
  destruct (areKeypointsVisible (bodyLineKeypoints k s)) eqn:V.
  - rewrite (bodyLineForSide_visible k s V). cbn [bl_angle bl_confidence].
    split.
    + right. split; [now apply visible_mean | reflexivity].
    + apply degrees_open_range, atan2_range.
  - rewrite (bodyLineForSide_low k s (not_visible_anyBelow _ V)).
    cbn [bl_angle]. split; [now left | lra].
Qed.

(** X6: the body line, before smoothing, has an angle in (-180, 180]; its
    confidence is the larger of the two sides' confidences, and is either 0
    or at least 0.6; when it is 0 the angle is 0. *)
Theorem X6_body_line_range (k : Keypoints) :
  let b := calculateBodyLineStraightness k in
  -180 < bl_angle b <= 180
  /\ bl_confidence b
     = Rmax (bl_confidence (calculateBodyLineForSide k Left))
            (bl_confidence (calculateBodyLineForSide k Right))
  /\ (bl_confidence b = 0 \/ 6 / 10 <= bl_confidence b)
  /\ (bl_confidence b = 0 -> bl_angle b = 0).
Proof.
  cbv zeta. unfold calculateBodyLineStraightness.
  destruct (bodyLineForSide_cases k Left) as [CL RL].
  destruct (bodyLineForSide_cases k Right) as [CR RR].
  set (l := calculateBodyLineForSide k Left) in *.
  set (r := calculateBodyLineForSide k Right) in *.
  assert (Hside : forall b : BodyLine,
            b = mkBodyLine 0 0
            \/ 6 / 10 <= bl_confidence b /\ bl_angle b = bl_angle b ->
            (bl_confidence b = 0 \/ 6 / 10 <= bl_confidence b)
            /\ (bl_confidence b = 0 -> bl_angle b = 0)).
  { intros b [-> | [H _]]; cbn; split; auto; intros; lra. }
  assert (HL : (bl_confidence l = 0 \/ 6 / 10 <= bl_confidence l)
               /\ (bl_confidence l = 0 -> bl_angle l = 0)).
  { apply Hside. destruct CL as [-> | [H _]]; [now left | right; now split]. }
  assert (HR : (bl_confidence r = 0 \/ 6 / 10 <= bl_confidence r)
               /\ (bl_confidence r = 0 -> bl_angle r = 0)).
  { apply Hside. destruct CR as [-> | [H _]]; [now left | right; now split]. }
  destruct (gtb (bl_confidence l) (bl_confidence r)) eqn:G.
  - apply gtb_true in G. split; [exact RL|].
    split; [now rewrite Rmax_left by lra|]. exact HL.
  - apply gtb_false in G. split; [exact RR|].
    split; [now rewrite Rmax_right by lra|]. exact HR.
Qed.

(** ** A subject that does not move *)









(** ** When the run-time call succeeds *)

Lemma typed_orOrigin (jk : Runtime.JsKeypoints) (name : KeypointName) :
  Runtime.typed jk name = orOrigin (jk name).
Proof. reflexivity. Qed.

Lemma origin_hidden : geb (confidence Runtime.origin) (6 / 10) = false.
Proof. apply geb_false. simpl. lra. Qed.

Lemma rt_every3_chain (a b c : option Keypoint) :
  Runtime.areKeypointsVisible [a; b; c]
  = if chain a b c
    then Runtime.Normal (areKeypointsVisible [orOrigin a; orOrigin b; orOrigin c])
    else Runtime.Throw Runtime.TypeError.
Proof.
  unfold areKeypointsVisible, is_visible, VISIBILITY_THRESHOLD, chain.
  destruct a as [qa|]; [|reflexivity].
  cbn [Runtime.areKeypointsVisible Runtime.deref Runtime.bind forallb orOrigin].
  destruct (geb (confidence qa) (6 / 10)); [|reflexivity].
  destruct b as [qb|]; [|reflexivity].
  cbn [Runtime.deref Runtime.bind orOrigin andb].
  destruct (geb (confidence qb) (6 / 10)); [|reflexivity].
  destruct c as [qc|]; [|reflexivity].
  cbn [Runtime.deref Runtime.bind orOrigin andb Runtime.ret].
  now destruct (geb (confidence qc) (6 / 10)).
Qed.

Lemma seen_all_present (a b c : option Keypoint) :
  areKeypointsVisible [orOrigin a; orOrigin b; orOrigin c] = true ->
  a = Some (orOrigin a) /\ b = Some (orOrigin b) /\ c = Some (orOrigin c).
Proof.
  intros H. rewrite visible_all in H.
  assert (P : forall o, 6 / 10 <= confidence (orOrigin o) -> o = Some (orOrigin o)).
  { intros [q|] Hq; [reflexivity|]. simpl in Hq. lra. }
  repeat split; apply P, H; cbn; auto.
Qed.

Lemma rt_angleAt (a1 b1 a2 b2 : Keypoint) :
  Runtime.angleAt (Some a1) (Some b1) (Some a2) (Some b2)
  = Runtime.Normal
      (calculateAngleBetweenVectors
         (mkVec2 (x a1 - x b1) (y a1 - y b1))
         (mkVec2 (x a2 - x b2) (y a2 - y b2))).
Proof. reflexivity. Qed.

(** Each helper completes exactly when its [every] does, and then returns
    what the typed helper returns. *)
Ltac helper_chain jk :=
  rewrite rt_every3_chain; rewrite ?typed_orOrigin;
  match goal with |- context [chain ?a ?b ?c] => destruct (chain a b c) end;
  [|reflexivity]; cbn [Runtime.bind];
  match goal with
  | |- context [areKeypointsVisible [orOrigin ?a; orOrigin ?b; orOrigin ?c]] =>
      destruct (areKeypointsVisible [orOrigin a; orOrigin b; orOrigin c]) eqn:V;
      [destruct (seen_all_present a b c V) as (Ea & Eb & Ec);
       cbn [negb]; rewrite Ea, Eb, Ec; reflexivity
      | reflexivity]
  end.

Lemma rk_hip (jk : Runtime.JsKeypoints) (s : Side) :
  Runtime.calculateHipAngle jk s
  = if chain (jk (hip_of s)) (jk (knee_of s)) (jk (ankle_of s))
    then Runtime.Normal (calculateHipAngle (Runtime.typed jk) s)
    else Runtime.Throw Runtime.TypeError.
Proof.
  unfold Runtime.calculateHipAngle, calculateHipAngle. helper_chain jk.
Qed.

Lemma rk_knee (jk : Runtime.JsKeypoints) (s : Side) :
  Runtime.calculateKneeAngle jk s
  = if chain (jk (hip_of s)) (jk (knee_of s)) (jk (ankle_of s))
    then Runtime.Normal (calculateKneeAngle (Runtime.typed jk) s)
    else Runtime.Throw Runtime.TypeError.
Proof.
  unfold Runtime.calculateKneeAngle, calculateKneeAngle. helper_chain jk.
Qed.

Lemma rk_shoulder (jk : Runtime.JsKeypoints) (s : Side) :
  Runtime.calculateShoulderAngle jk s
  = if chain (jk (hip_of s)) (jk (shoulder_of s)) (jk (elbow_of s))
    then Runtime.Normal (calculateShoulderAngle (Runtime.typed jk) s)
    else Runtime.Throw Runtime.TypeError.
Proof.
  unfold Runtime.calculateShoulderAngle, calculateShoulderAngle.
  helper_chain jk.
Qed.

Lemma rk_elbow (jk : Runtime.JsKeypoints) (s : Side) :
  Runtime.calculateElbowAngle jk s
  = if chain (jk (shoulder_of s)) (jk (elbow_of s)) (jk (wrist_of s))
    then Runtime.Normal (calculateElbowAngle (Runtime.typed jk) s)
    else Runtime.Throw Runtime.TypeError.
Proof.
  unfold Runtime.calculateElbowAngle, calculateElbowAngle. helper_chain jk.
Qed.

Lemma rk_bodyLineForSide (jk : Runtime.JsKeypoints) (s : Side) :
  Runtime.calculateBodyLineForSide jk s
  = if chain (jk (shoulder_of s)) (jk (hip_of s)) (jk (ankle_of s))
    then Runtime.Normal (calculateBodyLineForSide (Runtime.typed jk) s)
    else Runtime.Throw Runtime.TypeError.
Proof.
  unfold Runtime.calculateBodyLineForSide, calculateBodyLineForSide.
  helper_chain jk.
Qed.

Lemma rk_better (jk : Runtime.JsKeypoints) (a b : KeypointName) :
  Runtime.better (jk a) (jk b)
  = if isPresent jk a && isPresent jk b
    then Runtime.Normal
           (Some (better (Runtime.typed jk a) (Runtime.typed jk b)))
    else Runtime.Throw Runtime.TypeError.
Proof.
  unfold Runtime.better, better, isPresent, Runtime.typed.
  destruct (jk a) as [qa|]; [|reflexivity].
  destruct (jk b) as [qb|]; [|reflexivity].
  cbn. now destruct (gtb (confidence qa) (confidence qb)).
Qed.

Lemma rk_neck (jk : Runtime.JsKeypoints) :
  Runtime.calculateNeckAngle jk
  = if isPresent jk left_ear && isPresent jk right_ear
       && (isPresent jk left_shoulder && isPresent jk right_shoulder)
       && (isPresent jk left_hip && isPresent jk right_hip)
    then Runtime.Normal (calculateNeckAngle (Runtime.typed jk))
    else Runtime.Throw Runtime.TypeError.
Proof.
  unfold Runtime.calculateNeckAngle. rewrite !rk_better.
  destruct (isPresent jk left_ear && isPresent jk right_ear); [|reflexivity].
  cbn [Runtime.bind andb].
  destruct (isPresent jk left_shoulder && isPresent jk right_shoulder);
    [|reflexivity].
  cbn [Runtime.bind andb].
  destruct (isPresent jk left_hip && isPresent jk right_hip); [|reflexivity].
  cbn [Runtime.bind andb].
  rewrite (rt_visible3 _ _ _). cbn [Runtime.bind].
  unfold calculateNeckAngle, neck_ear, neck_shoulder, neck_hip.
  now destruct (areKeypointsVisible _).
Qed.

Lemma rk_averageY (jk : Runtime.JsKeypoints) (a b : KeypointName) :
  Runtime.averageY [jk a; jk b]
  = if isPresent jk a && isPresent jk b
    then Runtime.Normal (averageY [Runtime.typed jk a; Runtime.typed jk b])
    else Runtime.Throw Runtime.TypeError.
Proof.
  unfold isPresent, Runtime.typed.
  destruct (jk a) as [qa|]; [|reflexivity].
  destruct (jk b) as [qb|]; [|reflexivity].
  apply rt_averageY.
Qed.

Lemma rk_ankleHeight (jk : Runtime.JsKeypoints) (a : KeypointName) :
  Runtime.ankleHeight (jk a)
  = if isPresent jk a
    then Runtime.Normal (if geb (confidence (Runtime.typed jk a)) (6 / 10)
                         then y (Runtime.typed jk a) else 0)
    else Runtime.Throw Runtime.TypeError.
Proof.
  unfold isPresent, Runtime.typed, Runtime.ankleHeight.
  now destruct (jk a).
Qed.

Lemma rk_pairMean (jk : Runtime.JsKeypoints) (a b : KeypointName) :
  Runtime.pairMean (jk a) (jk b)
  = if isPresent jk a && isPresent jk b
    then Runtime.Normal ((confidence (Runtime.typed jk a)
                          + confidence (Runtime.typed jk b)) / 2)
    else Runtime.Throw Runtime.TypeError.
Proof.
  unfold isPresent, Runtime.typed, Runtime.pairMean.
  destruct (jk a) as [qa|]; [|reflexivity].
  now destruct (jk b).
Qed.

Lemma bind_if {A B} (c : bool) (a : A) (k : A -> Runtime.completion B) :
  Runtime.bind (if c then Runtime.Normal a else Runtime.Throw Runtime.TypeError) k
  = if c then k a else Runtime.Throw Runtime.TypeError.
Proof. now destruct c. Qed.

Lemma rk_jointAngles (jk : Runtime.JsKeypoints) :
  let leg s := chain (jk (hip_of s)) (jk (knee_of s)) (jk (ankle_of s)) in
  let arm s := chain (jk (hip_of s)) (jk (shoulder_of s)) (jk (elbow_of s)) in
  let fore s := chain (jk (shoulder_of s)) (jk (elbow_of s)) (jk (wrist_of s)) in
  let pair a b := isPresent jk a && isPresent jk b in
  Runtime.calculateJointAngles jk
  = if leg Left && leg Right && arm Left && arm Right && fore Left && fore Right
       && (pair left_ear right_ear && pair left_shoulder right_shoulder
           && pair left_hip right_hip)
    then Runtime.Normal (calculateJointAngles (Runtime.typed jk))
    else Runtime.Throw Runtime.TypeError.
Proof.
  cbv zeta. unfold Runtime.calculateJointAngles.
  rewrite !rk_hip, !rk_knee, !rk_shoulder, !rk_elbow, rk_neck.
  destruct (chain (jk (hip_of Left)) (jk (knee_of Left)) (jk (ankle_of Left)));
    [|reflexivity].
  destruct (chain (jk (hip_of Right)) (jk (knee_of Right)) (jk (ankle_of Right)));
    [|reflexivity].
  destruct (chain (jk (hip_of Left)) (jk (shoulder_of Left)) (jk (elbow_of Left)));
    [|reflexivity].
  destruct (chain (jk (hip_of Right)) (jk (shoulder_of Right))
                  (jk (elbow_of Right))); [|reflexivity].
  destruct (chain (jk (shoulder_of Left)) (jk (elbow_of Left))
                  (jk (wrist_of Left))); [|reflexivity].
  destruct (chain (jk (shoulder_of Right)) (jk (elbow_of Right))
                  (jk (wrist_of Right))); [|reflexivity].
  cbn [Runtime.bind andb].
  now destruct (isPresent jk left_ear && isPresent jk right_ear
                && (isPresent jk left_shoulder && isPresent jk right_shoulder)
                && (isPresent jk left_hip && isPresent jk right_hip)).
Qed.

Lemma rk_bodyLine (jk : Runtime.JsKeypoints) :
  let line s := chain (jk (shoulder_of s)) (jk (hip_of s)) (jk (ankle_of s)) in
  Runtime.calculateBodyLineStraightness jk
  = if line Left && line Right
    then Runtime.Normal (calculateBodyLineStraightness (Runtime.typed jk))
    else Runtime.Throw Runtime.TypeError.
Proof.
  cbv zeta. unfold Runtime.calculateBodyLineStraightness.
  rewrite !rk_bodyLineForSide.
  destruct (chain (jk (shoulder_of Left)) _ _); [|reflexivity].
  now destruct (chain (jk (shoulder_of Right)) _ _).
Qed.

Lemma rk_positions (jk : Runtime.JsKeypoints) :
  let pair a b := isPresent jk a && isPresent jk b in
  Runtime.calculateBodyPositions jk
  = if pair left_hip right_hip && pair left_shoulder right_shoulder
       && isPresent jk left_ankle && isPresent jk right_ankle
       && pair left_ear right_ear
    then Runtime.Normal (calculateBodyPositions (Runtime.typed jk))
    else Runtime.Throw Runtime.TypeError.
Proof.
  cbv zeta. unfold Runtime.calculateBodyPositions.
  rewrite !rk_averageY, !rk_ankleHeight.
  destruct (isPresent jk left_hip && isPresent jk right_hip); [|reflexivity].
  destruct (isPresent jk left_shoulder && isPresent jk right_shoulder);
    [|reflexivity].
  destruct (isPresent jk left_ankle); [|reflexivity].
  destruct (isPresent jk right_ankle); [|reflexivity].
  now destruct (isPresent jk left_ear && isPresent jk right_ear).
Qed.

Lemma rk_visibility (jk : Runtime.JsKeypoints) :
  let pair a b := isPresent jk a && isPresent jk b in
  Runtime.calculateVisibility jk
  = if pair left_shoulder right_shoulder && pair left_hip right_hip
       && pair left_ankle right_ankle
    then Runtime.Normal (presentVerdict jk)
    else Runtime.Throw Runtime.TypeError.
Proof.
  cbv zeta. unfold Runtime.calculateVisibility.
  rewrite !rk_pairMean.
  destruct (isPresent jk left_shoulder && isPresent jk right_shoulder);
    [|reflexivity].
  destruct (isPresent jk left_hip && isPresent jk right_hip); [|reflexivity].
  now destruct (isPresent jk left_ankle && isPresent jk right_ankle).
Qed.

Lemma applySmoothing_withVisibility (e : FeatureEngine) (f : Features)
    (v : VisibilityVerdict) :
  applySmoothing e (withVisibility f v) = withVisibility (applySmoothing e f) v.
Proof. unfold applySmoothing. now destruct (previousFeatures e). Qed.

Lemma accessOK_split (jk : Runtime.JsKeypoints) :
  let leg s := chain (jk (hip_of s)) (jk (knee_of s)) (jk (ankle_of s)) in
  let arm s := chain (jk (hip_of s)) (jk (shoulder_of s)) (jk (elbow_of s)) in
  let fore s := chain (jk (shoulder_of s)) (jk (elbow_of s)) (jk (wrist_of s)) in
  let line s := chain (jk (shoulder_of s)) (jk (hip_of s)) (jk (ankle_of s)) in
  let pair a b := isPresent jk a && isPresent jk b in
  accessOK jk
  = (leg Left && leg Right && arm Left && arm Right && fore Left && fore Right
     && (pair left_ear right_ear && pair left_shoulder right_shoulder
         && pair left_hip right_hip))
    && ((line Left && line Right)
        && ((pair left_hip right_hip && pair left_shoulder right_shoulder
             && isPresent jk left_ankle && isPresent jk right_ankle
             && pair left_ear right_ear)
            && (pair left_shoulder right_shoulder && pair left_hip right_hip
                && pair left_ankle right_ankle))).
Proof. cbv zeta. unfold accessOK. btauto. Qed.

Lemma rk_tryBlock (e : FeatureEngine) (now : R) (pose : Runtime.JsPose) :
  let jk := Runtime.js_keypoints pose in
  let data :=
    withVisibility (snd (calculateFeatures e now (Runtime.typedPose pose)))
                   (presentVerdict jk) in
  Runtime.tryBlock e now pose
  = if accessOK jk
    then Runtime.Normal
           (mkFeatureEngine (config e) (Some data) (smoothingFactor e), data)
    else Runtime.Throw Runtime.TypeError.
Proof.
  cbv zeta. rewrite accessOK_split. unfold Runtime.tryBlock.
  rewrite rk_jointAngles, rk_bodyLine, rk_positions, rk_visibility.
  match goal with |- context [Runtime.bind (if ?c then _ else _) _] =>
    destruct c end; [|reflexivity].
  cbn [Runtime.bind andb].
  match goal with |- context [Runtime.bind (if ?c then _ else _) _] =>
    destruct c end; [|reflexivity].
  cbn [Runtime.bind andb].
  match goal with |- context [Runtime.bind (if ?c then _ else _) _] =>
    destruct c end; [|reflexivity].
  cbn [Runtime.bind andb].
  match goal with |- context [Runtime.bind (if ?c then _ else _) _] =>
    destruct c end; [|reflexivity].
  cbn [Runtime.bind andb Runtime.ret].
  rewrite calculateFeatures_data.
  destruct (smoothingApplies e).
  - rewrite <- applySmoothing_withVisibility. reflexivity.
  - reflexivity.
Qed.

Lemma side_equiv (jk : Runtime.JsKeypoints) (s : Side) :
  chain (jk (hip_of s)) (jk (knee_of s)) (jk (ankle_of s))
  && chain (jk (hip_of s)) (jk (shoulder_of s)) (jk (elbow_of s))
  && chain (jk (shoulder_of s)) (jk (elbow_of s)) (jk (wrist_of s))
  && chain (jk (shoulder_of s)) (jk (hip_of s)) (jk (ankle_of s))
  && (isPresent jk (hip_of s) && isPresent jk (shoulder_of s)
      && isPresent jk (ankle_of s))
  = isPresent jk (hip_of s) && isPresent jk (shoulder_of s)
    && isPresent jk (ankle_of s) && sideReadable jk s.
Proof.
  unfold sideReadable, chain, isPresent, isSeen.
  destruct (jk (hip_of s)) as [h|]; [|reflexivity].
  destruct (jk (shoulder_of s)) as [sh|];
    [|now destruct (geb (confidence h) (6 / 10)), (jk (knee_of s)) as [q|];
          try destruct (geb (confidence q) (6 / 10));
          destruct (jk (ankle_of s))].
  destruct (jk (ankle_of s)) as [a|];
    [|now destruct (geb (confidence h) (6 / 10)), (jk (knee_of s)) as [q|];
          try destruct (geb (confidence q) (6 / 10));
          destruct (geb (confidence sh) (6 / 10)), (jk (elbow_of s)) as [q'|];
          try destruct (geb (confidence q') (6 / 10));
          destruct (jk (wrist_of s))].
  destruct (geb (confidence h) (6 / 10)), (geb (confidence sh) (6 / 10)),
    (jk (knee_of s)) as [kn|], (jk (elbow_of s)) as [el|],
    (jk (wrist_of s)) as [wr|];
    cbn;
    repeat match goal with
           | |- context [geb ?a ?b] => destruct (geb a b)
           end; reflexivity.
Qed.

Lemma accessOK_readable (jk : Runtime.JsKeypoints) : accessOK jk = readable jk.
Proof.
  pose proof (side_equiv jk Left) as HL. pose proof (side_equiv jk Right) as HR.
  unfold accessOK, readable, alwaysRead. cbn [forallb].
  cbn [hip_of knee_of ankle_of shoulder_of elbow_of wrist_of] in *.
  set (legL := chain (jk left_hip) (jk left_knee) (jk left_ankle)) in *.
  set (legR := chain (jk right_hip) (jk right_knee) (jk right_ankle)) in *.
  set (armL := chain (jk left_hip) (jk left_shoulder) (jk left_elbow)) in *.
  set (armR := chain (jk right_hip) (jk right_shoulder) (jk right_elbow)) in *.
  set (foreL := chain (jk left_shoulder) (jk left_elbow) (jk left_wrist)) in *.
  set (foreR := chain (jk right_shoulder) (jk right_elbow) (jk right_wrist)) in *.
  set (lineL := chain (jk left_shoulder) (jk left_hip) (jk left_ankle)) in *.
  set (lineR := chain (jk right_shoulder) (jk right_hip) (jk right_ankle)) in *.
  set (rL := sideReadable jk Left) in *. set (rR := sideReadable jk Right) in *.
  set (pe := isPresent jk left_ear). set (pe' := isPresent jk right_ear).
  set (ph := isPresent jk left_hip) in *. set (ph' := isPresent jk right_hip) in *.
  set (ps := isPresent jk left_shoulder) in *.
  set (ps' := isPresent jk right_shoulder) in *.
  set (pa := isPresent jk left_ankle) in *.
  set (pa' := isPresent jk right_ankle) in *.
  transitivity
    ((legL && armL && foreL && lineL && (ph && ps && pa))
     && (legR && armR && foreR && lineR && (ph' && ps' && pa'))
     && (pe && pe')); [btauto|].
  rewrite HL, HR. btauto.
Qed.

(** X8: the run-time call succeeds exactly when the eight keypoints that
    are always read (hips, shoulders, ears, ankles) are present and, on
    each side, the knee is present if the hip reaches 0.6, the elbow if the
    shoulder does, and the wrist if shoulder and elbow do; nose, eyes,
    heels and toes are never needed.  On success the data are those of the
    typed computation with the overall visibility taken over the
    properties that exist; on failure the engine is left as it was. *)
Theorem X8_success_iff_readable (e : FeatureEngine) (now tret : R)
    (pose : Runtime.JsPose) :
  let jk := Runtime.js_keypoints pose in
  let r := Runtime.calculateFeatures e now tret pose in
  let data :=
    withVisibility (snd (calculateFeatures e now (Runtime.typedPose pose)))
                   (presentVerdict jk) in
  Runtime.success (snd r) = readable jk
  /\ (readable jk = true ->
      r = (mkFeatureEngine (config e) (Some data) (smoothingFactor e),
           Runtime.Success data tret))
  /\ (readable jk = false ->
      r = (e, Runtime.Failure
                (Runtime.mkAppError Runtime.pose_estimation_failed
                                    Runtime.TypeError tret true) tret)).
Proof.
  cbv zeta. unfold Runtime.calculateFeatures.
  pose proof (rk_tryBlock e now pose) as H. cbv zeta in H.
  rewrite H, accessOK_readable.
  destruct (readable (Runtime.js_keypoints pose)).
  - repeat split; try reflexivity. intros; discriminate.
  - repeat split; try reflexivity. intros; discriminate.
Qed.

Ltac eval_readable :=
  unfold readable, sideReadable, alwaysRead, isPresent, isSeen;
  cbn [forallb hip_of knee_of ankle_of shoulder_of elbow_of wrist_of
       Runtime.js_keypoints sparse_js_pose kneeless_js_pose
       upright_keypoints];
  unfold kp; cbn [confidence]; cmp; reflexivity.

Lemma sparse_readable : readable (Runtime.js_keypoints sparse_js_pose) = true.
Proof. eval_readable. Qed.

Lemma kneeless_unreadable :
  readable (Runtime.js_keypoints kneeless_js_pose) = false.
Proof. eval_readable. Qed.

(** A pose without heel, toe and left-knee properties is accepted while the
    left hip is at confidence 0.3, and rejected once the left hip is in
    sight. *)
Lemma X8_witness :
  Runtime.success
    (snd (Runtime.calculateFeatures (constructor None) 0 0 sparse_js_pose))
  = true
  /\ Runtime.success
       (snd (Runtime.calculateFeatures (constructor None) 0 0 kneeless_js_pose))
     = false.
Proof.
  split.
  - destruct (X8_success_iff_readable (constructor None) 0 0 sparse_js_pose)
      as (_ & H & _).
    now rewrite (H sparse_readable).
  - destruct (X8_success_iff_readable (constructor None) 0 0 kneeless_js_pose)
      as (_ & _ & H).
    now rewrite (H kneeless_unreadable).
Defined.

(** * The pose service *)

(** X9: getKeypointVisibility answers 'visible' exactly for confidences that
    reach the visibility threshold (as isKeypointVisible does), 'occluded'
    exactly for those below it that reach the confidence threshold, and
    'not_visible' otherwise; with the default thresholds, both 0.6, it
    never answers 'occluded'. *)
Theorem X9_keypoint_visibility (sv : PoseService.PoseService) (c : R) :
  let vt := PoseService.visibilityThreshold (PoseService.config sv) in
  let ct := PoseService.confidenceThreshold (PoseService.config sv) in
  let r := PoseService.getKeypointVisibility sv c in
  (r = visible <-> vt <= c)
  /\ (r = visible <-> PoseService.isKeypointVisible sv c = true)
  /\ (r = occluded <-> ct <= c < vt)
  /\ (r = not_visible <-> c < vt /\ c < ct)
  /\ (vt <= ct -> r <> occluded).
Proof.
  cbv zeta.
  unfold PoseService.getKeypointVisibility, PoseService.isKeypointVisible.
  destruct (geb c (PoseService.visibilityThreshold (PoseService.config sv)))
    eqn:V;
    [apply geb_true in V
    | apply geb_false in V;
      destruct (geb c (PoseService.confidenceThreshold (PoseService.config sv)))
        eqn:C; [apply geb_true in C | apply geb_false in C]];
    repeat split; intros; try discriminate; try reflexivity; try lra;
      try (exfalso; lra).
Qed.

Lemma X9_witness :
  PoseService.getKeypointVisibility (PoseService.constructor None) (1 / 2)
  <> occluded.
Proof.
  apply (X9_keypoint_visibility (PoseService.constructor None) (1 / 2)).
  simpl. lra.
Defined.

(** ** The visibility score of a pose *)

(** X10: the visibility score the pose service attaches to a pose lies in
    [0, 1]; with a visibility threshold of 0.6 (the default) it is the
    overall visibility the feature engine computes for the same keypoints;
    for the keypoints processPredictions returns it is 0. *)
Theorem X10_visibility_score (sv : PoseService.PoseService) (k : Keypoints) :
  0 <= PoseService.calculateVisibilityScore sv k <= 1
  /\ (PoseService.visibilityThreshold (PoseService.config sv) = 6 / 10 ->
      PoseService.calculateVisibilityScore sv k
      = overall (calculateVisibility k))
  /\ (0 < PoseService.visibilityThreshold (PoseService.config sv) ->
      PoseService.calculateVisibilityScore sv PoseService.processPredictions
      = 0).
Proof.
  unfold PoseService.calculateVisibilityScore. rewrite INR_21.
  split; [|split].
  - set (n := length _).
    assert (Hle : (n <= 21)%nat) by apply filter_length_le.
    apply le_INR in Hle. replace (INR 21) with 21 in Hle by (simpl; lra).
    pose proof (pos_INR n). lra.
  - intros ->. now rewrite overall_count.
  - intros Hpos. rewrite filter_none.
    + simpl. lra.
    + intros name. apply geb_false. simpl. lra.
Qed.

Lemma X10_witness :
  PoseService.visibilityThreshold
    (PoseService.config (PoseService.constructor None)) = 6 / 10
  /\ PoseService.calculateVisibilityScore (PoseService.constructor None)
       upright_keypoints
     = overall (calculateVisibility upright_keypoints).
Proof.
  split; [reflexivity|].
  apply (X10_visibility_score (PoseService.constructor None) upright_keypoints).
  reflexivity.
Defined.

(** ** Inference-time statistics *)

Lemma tl_skipn {A} (n : nat) (l : list A) : tl (skipn n l) = skipn (S n) l.
Proof.
  change (S n) with (1 + n)%nat. rewrite <- skipn_skipn.
  now destruct (skipn n l).
Qed.

Lemma lastTen_length (l : list R) : length (lastTen l) = Nat.min (length l) 10.
Proof. unfold lastTen. rewrite length_skipn. lia. Qed.

(** One more time pushed onto the kept window gives the window of the
    longer history. *)
Lemma lastTen_snoc (l : list R) (t : R) :
  (let pushed := lastTen l ++ [t] in
   if Nat.ltb 10 (length pushed) then tl pushed else pushed)
  = lastTen (l ++ [t]).
Proof.
  cbv zeta. rewrite length_app, lastTen_length. cbn [length].
  unfold lastTen. rewrite length_app. cbn [length].
  destruct (Nat.ltb_spec 10 (Nat.min (length l) 10 + 1)) as [H | H].
  - assert (Hl : (10 <= length l)%nat) by lia.
    replace (length l + 1 - 10)%nat with (S (length l - 10)) by lia.
    rewrite skipn_app.
    replace (S (length l - 10) - length l)%nat with 0%nat by lia.
    rewrite <- tl_skipn. change (skipn 0 [t]) with [t].
    destruct (skipn (length l - 10) l) as [|a rest] eqn:E; [|reflexivity].
    apply skipn_all_iff in E. lia.
  - assert (Hl : (length l < 10)%nat) by lia.
    replace (length l - 10)%nat with 0%nat by lia.
    replace (length l + 1 - 10)%nat with 0%nat by lia.
    reflexivity.
Qed.

Lemma metrics_after (cfg : option PoseService.PartialConfig) (ts : list R) :
  let sv := fold_left PoseService.updatePerformanceMetrics ts
                      (PoseService.constructor cfg) in
  PoseService.inferenceTimes sv = lastTen ts
  /\ PoseService.totalInferences (PoseService.state sv) = length ts
  /\ PoseService.averageInferenceTime (PoseService.state sv)
     = match ts with
       | [] => 0
       | _ => fold_left Rplus (lastTen ts) 0 / INR (length (lastTen ts))
       end.
Proof.
  induction ts as [|t ts IH] using rev_ind.
  - cbn. repeat split; reflexivity.
  - cbv zeta in *. rewrite fold_left_app. cbn [fold_left].
    destruct IH as (Htimes & Htotal & _).
    set (sv := fold_left PoseService.updatePerformanceMetrics ts
                         (PoseService.constructor cfg)) in *.
    unfold PoseService.updatePerformanceMetrics,
      PoseService.maxInferenceHistory.
    cbn [PoseService.inferenceTimes PoseService.state
         PoseService.totalInferences PoseService.averageInferenceTime].
    rewrite Htimes, Htotal.
    pose proof (lastTen_snoc ts t) as Hw. cbv zeta in Hw. rewrite Hw.
    split; [reflexivity|]. split; [rewrite length_app; cbn; lia|].
    now destruct ts.
Qed.

(** X11: after any number of inferences on a new service, the kept
    inference times are the last ten in order (all of them when fewer), at
    most ten are kept, totalInferences counts them all, and
    averageInferenceTime is the mean of the kept ones. *)
Theorem X11_inference_window (cfg : option PoseService.PartialConfig)
    (ts : list R) :
  let sv := fold_left PoseService.updatePerformanceMetrics ts
                      (PoseService.constructor cfg) in
  PoseService.inferenceTimes sv = skipn (length ts - 10) ts
  /\ length (PoseService.inferenceTimes sv) = Nat.min (length ts) 10
  /\ PoseService.totalInferences (PoseService.state sv) = length ts
  /\ PoseService.averageInferenceTime (PoseService.state sv)
     = match ts with
       | [] => 0
       | _ => fold_left Rplus (skipn (length ts - 10) ts) 0
              / INR (Nat.min (length ts) 10)
       end.
Proof.
  cbv zeta. destruct (metrics_after cfg ts) as (H1 & H2 & H3).
  split; [exact H1|]. split; [rewrite H1; apply lastTen_length|].
  split; [exact H2|]. rewrite H3. destruct ts; [reflexivity|].
  now rewrite lastTen_length.
Qed.

(** * More on stability, velocity and configuration *)

Lemma score_formula (e : FeatureEngine) (v : Velocity) :
  stabilityScore (calculateStability e v)
  = Rmax 0 (1 - maxVelocity v / (motionThreshold (config e) * 2)).
Proof. reflexivity. Qed.

Lemma maxVelocity_zero (v : Velocity) :
  maxVelocity v = 0 <->
  v_bodyLineAngle v = 0 /\ v_hipHeight v = 0 /\ v_shoulderHeight v = 0.
Proof.
  split.
  - intros H.
    assert (Hle : maxVelocity v <= 0) by lra.
    apply maxVelocity_le in Hle. destruct Hle as (H1 & H2 & H3).
    assert (Z : forall a, Rabs a <= 0 -> a = 0).
    { intros a Ha. destruct (Req_dec a 0) as [E | E]; [exact E|].
      apply Rabs_pos_lt in E. lra. }
    repeat split; now apply Z.
  - intros (H1 & H2 & H3). unfold maxVelocity.
    rewrite H1, H2, H3, Rabs_R0. now rewrite !(Rmax_left 0 0) by lra.
Qed.

(** X12: for a positive motion threshold the stability score lies in
    [0, 1]; the verdict is stable exactly when the score is at least 0.5;
    the score is 1 exactly when the three velocities are 0, and 0 exactly
    when the largest absolute velocity reaches twice the threshold. *)
Theorem X12_score_and_flag (e : FeatureEngine) (v : Velocity) :
  0 < motionThreshold (config e) ->
  let s := calculateStability e v in
  0 <= stabilityScore s <= 1
  /\ (isStable s = true <-> 1 / 2 <= stabilityScore s)
  /\ (stabilityScore s = 1 <->
      v_bodyLineAngle v = 0 /\ v_hipHeight v = 0 /\ v_shoulderHeight v = 0)
  /\ (stabilityScore s = 0 <-> 2 * motionThreshold (config e) <= maxVelocity v).
Proof.
  intros Ht s. unfold s. rewrite score_formula.
  rewrite <- maxVelocity_zero.
  assert (Hstable : isStable (calculateStability e v) = true
                    <-> maxVelocity v <= motionThreshold (config e)).
  { rewrite maxVelocity_le. apply isStable_iff. }
  rewrite Hstable.
  pose proof (maxVelocity_nonneg v) as Hm.
  set (m := maxVelocity v) in *. set (t := motionThreshold (config e)) in *.
  assert (Hq : m / (t * 2) * (t * 2) = m) by (field; lra).
  set (q := m / (t * 2)) in *.
  assert (Hq0 : 0 <= q).
  { destruct (Rle_dec 0 q); [assumption | exfalso; nra]. }
  unfold Rmax. destruct (Rle_dec 0 (1 - q)) as [H | H].
  - repeat split; intros; try lra; try nra.
  - repeat split; intros; try lra; try nra.
Qed.

Lemma X12_witness :
  let s := calculateStability (constructor None) (mkVelocity 0 2 0) in
  0 <= stabilityScore s <= 1.
Proof.
  apply (X12_score_and_flag (constructor None) (mkVelocity 0 2 0)).
  simpl. lra.
Defined.

(** ** Velocity is measured against the smoothed body line *)



(** ** Updating the configuration *)

Lemma spread_merge (c : FeatureConfig) (p q : PartialFeatureConfig) :
  spread_config (spread_config c p) q = spread_config c (merge_partial p q).
Proof.
  destruct p as [p1 p2 p3 p4], q as [q1 q2 q3 q4].
  unfold spread_config, merge_partial; cbn.
  now destruct q1, q2, q3, q4.
Qed.

Lemma spread_empty (c : FeatureConfig) : spread_config c empty_partial = c.
Proof. now destruct c. Qed.

(** X14: on every engine reached through the class's methods the smoothing
    factor in use equals the configured one; updateConfig keeps the stored
    previous Features; two updates in a row amount to one update with the
    later properties overriding the earlier ones; and an update with no
    property changes nothing. *)
Theorem X14_updateConfig (e : FeatureEngine) (p q : PartialFeatureConfig) :
  reachable e ->
  previousFeatures (updateConfig e p) = previousFeatures e
  /\ smoothingFactor e = cfg_smoothingFactor (getConfig e)
  /\ updateConfig (updateConfig e p) q = updateConfig e (merge_partial p q)
  /\ updateConfig e empty_partial = e.
Proof.
  intros He. split; [reflexivity|].
  split; [now apply reachable_alpha|]. split.
  - unfold updateConfig; cbn [config previousFeatures].
    now rewrite spread_merge.
  - pose proof (reachable_alpha e He) as Ha.
    unfold updateConfig. rewrite spread_empty, <- Ha. now destruct e.
Qed.

Lemma X14_witness :
  reachable engine_after_upright
  /\ updateConfig engine_after_upright empty_partial = engine_after_upright.
Proof.
  assert (Hr : reachable engine_after_upright) by apply reach_frame, reach_new.
  split; [exact Hr|].
  apply (X14_updateConfig engine_after_upright empty_partial empty_partial Hr).
Defined.

(** ** The mean height of a list of keypoints *)

Lemma fold_sum_shift (l : list Keypoint) (a : R) :
  fold_left (fun acc q => acc + y q) l a
  = a + fold_left (fun acc q => acc + y q) l 0.
Proof.
  revert a. induction l as [|q l IH]; intros a; cbn [fold_left]; [ring|].
  rewrite (IH (a + y q)), (IH (0 + y q)). ring.
Qed.

Lemma fold_sum_bounds (lo hi : R) (l : list Keypoint) :
  (forall q, In q l -> lo <= y q <= hi) ->
  INR (length l) * lo <= fold_left (fun acc q => acc + y q) l 0
                      <= INR (length l) * hi.
Proof.
  induction l as [|q l IH]; intros H.
  - cbn. lra.
  - cbn [fold_left]. rewrite fold_sum_shift.
    change (length (q :: l)) with (S (length l)). rewrite S_INR.
    destruct IH as [I1 I2]; [intros r Hr; apply H; now right|].
    destruct (H q (or_introl eq_refl)) as [Q1 Q2]. split; nra.
Qed.

(** X15: averageY is 0 when no keypoint of the list reaches 0.6 (the empty
    list included); otherwise it lies between any bounds that hold for the
    y-coordinates of the keypoints that do, whatever the coordinates of
    the others. *)
Theorem X15_averageY_bounds (lo hi : R) (l : list Keypoint) :
  ((forall q, In q l -> is_visible q = false) -> averageY l = 0)
  /\ ((exists q, In q l /\ is_visible q = true) ->
      (forall q, In q l -> is_visible q = true -> lo <= y q <= hi) ->
      lo <= averageY l <= hi).
Proof.
  unfold averageY. split.
  - intros Hnone.
    assert (E : filter is_visible l = []).
    { induction l as [|q l IH]; [reflexivity|]. cbn [filter].
      rewrite (Hnone q (or_introl eq_refl)). apply IH.
      intros r Hr. apply Hnone. now right. }
    now rewrite E.
  - intros (q & Hin & Hq) Hb.
    assert (Hq' : In q (filter is_visible l)) by (apply filter_In; now split).
    assert (Hb' : forall r, In r (filter is_visible l) -> lo <= y r <= hi).
    { intros r Hr. apply filter_In in Hr. now apply Hb. }
    pose proof (fold_sum_bounds lo hi _ Hb') as [S1 S2].
    set (vis := filter is_visible l) in *.
    assert (Hn : (0 < length vis)%nat) by (destruct vis; [contradiction | cbn; lia]).
    destruct (Nat.eqb_spec (length vis) 0) as [E | _]; [lia|].
    apply lt_INR in Hn. change (INR 0) with 0 in Hn.
    set (n := INR (length vis)) in *.
    set (s := fold_left (fun acc kp => acc + y kp) vis 0) in *.
    assert (Hs : s / n * n = s) by (field; lra).
    set (m := s / n) in *.
    split.
    + destruct (Rle_dec lo m); [assumption | exfalso; nra].
    + destruct (Rle_dec m hi); [assumption | exfalso; nra].
Qed.

Lemma X15_witness :
  50 <= averageY [kp 999 (-999) (1 / 2); kp 0 54 (9 / 10)] <= 60.
Proof.
  assert (V1 : is_visible (kp 999 (-999) (1 / 2)) = false)
    by (apply is_visible_false; simpl; lra).
  assert (V2 : is_visible (kp 0 54 (9 / 10)) = true)
    by (apply is_visible_true; simpl; lra).
  apply (X15_averageY_bounds 50 60).
  - exists (kp 0 54 (9 / 10)). split; [right; now left | exact V2].
  - intros q [<- | [<- | []]] Hq.
    + rewrite V1 in Hq. discriminate.
    + simpl. lra.
Defined.

(** ** Changing the distance to the camera *)















(** ** The pose in a mirror *)

Lemma mirror_angle (a b c d : R) :
  calculateAngleBetweenVectors (mkVec2 (- a) b) (mkVec2 (- c) d)
  = calculateAngleBetweenVectors (mkVec2 a b) (mkVec2 c d).
Proof.
  rewrite !angle_unfold.
  assert (M : forall p q, magnitude (mkVec2 (- p) q) = magnitude (mkVec2 p q)).
  { intros p q. unfold magnitude; cbn [vx vy]. f_equal. ring. }
  assert (D : dotProduct (mkVec2 (- a) b) (mkVec2 (- c) d)
              = dotProduct (mkVec2 a b) (mkVec2 c d)).
  { unfold dotProduct; cbn [vx vy]. ring. }
  now rewrite !M, D.
Qed.

Ltac mirror_vectors :=
  cbn [mirror x y];
  match goal with
  | |- calculateAngleBetweenVectors (mkVec2 ?a ?b) (mkVec2 ?c ?d) = _ =>
      replace a with (- (- a)) by ring; replace c with (- (- c)) by ring;
      rewrite mirror_angle; f_equal; f_equal; ring
  end.

Lemma mirror_visible (k : Keypoints) (a b d : KeypointName) :
  areKeypointsVisible [mirror k a; mirror k b; mirror k d]
  = areKeypointsVisible [k a; k b; k d].
Proof. reflexivity. Qed.

Lemma mirror_hip (k : Keypoints) (s : Side) :
  calculateHipAngle (mirror k) s = calculateHipAngle k s.
Proof.
  unfold calculateHipAngle. rewrite mirror_visible.
  destruct (negb (areKeypointsVisible _)); [reflexivity|]. mirror_vectors.
Qed.

Lemma mirror_shoulder (k : Keypoints) (s : Side) :
  calculateShoulderAngle (mirror k) s = calculateShoulderAngle k s.
Proof.
  unfold calculateShoulderAngle. rewrite mirror_visible.
  destruct (negb (areKeypointsVisible _)); [reflexivity|]. mirror_vectors.
Qed.

Lemma mirror_elbow (k : Keypoints) (s : Side) :
  calculateElbowAngle (mirror k) s = calculateElbowAngle k s.
Proof.
  unfold calculateElbowAngle. rewrite mirror_visible.
  destruct (negb (areKeypointsVisible _)); [reflexivity|]. mirror_vectors.
Qed.

Lemma mirror_better (k : Keypoints) (a b : KeypointName) :
  better (mirror k a) (mirror k b)
  = mkKeypoint (- x (better (k a) (k b))) (y (better (k a) (k b)))
               (confidence (better (k a) (k b)))
               (visibility (better (k a) (k b))).
Proof.
  unfold better. cbn [mirror confidence].
  now destruct (gtb (confidence (k a)) (confidence (k b))).
Qed.

Lemma mirror_neck (k : Keypoints) :
  calculateNeckAngle (mirror k) = calculateNeckAngle k.
Proof.
  unfold calculateNeckAngle, neck_ear, neck_shoulder, neck_hip.
  rewrite !mirror_better.
  set (ear := better (k left_ear) (k right_ear)).
  set (sh := better (k left_shoulder) (k right_shoulder)).
  set (hip := better (k left_hip) (k right_hip)).
  change (areKeypointsVisible
            [mkKeypoint (- x ear) (y ear) (confidence ear) (visibility ear);
             mkKeypoint (- x sh) (y sh) (confidence sh) (visibility sh);
             mkKeypoint (- x hip) (y hip) (confidence hip) (visibility hip)])
    with (areKeypointsVisible [ear; sh; hip]).
  destruct (negb (areKeypointsVisible _)); [reflexivity|].
  cbn [x y].
  match goal with
  | |- calculateAngleBetweenVectors (mkVec2 ?a ?b) (mkVec2 ?c ?d) = _ =>
      replace a with (- (- a)) by ring; replace c with (- (- c)) by ring;
      rewrite mirror_angle; f_equal; f_equal; ring
  end.
Qed.

Lemma atan2_mirror (b a : R) :
  ~ (b = 0 /\ a < 0) -> Math_atan2 (- b) a = - Math_atan2 b a.
Proof.
  intros Hup. unfold Math_atan2.
  assert (E : - b / a = - (b / a)) by (unfold Rdiv; ring).
  rewrite E, atan_opp.
  destruct (Rlt_dec 0 a) as [Ha | Ha]; [reflexivity|].
  destruct (Rlt_dec a 0) as [Ha' | Ha'].
  - destruct (Rle_dec 0 b) as [Hb | Hb], (Rle_dec 0 (- b)) as [Hb' | Hb'];
      try ring; exfalso.
    + apply Hup. split; lra.
    + lra.
  - destruct (Rlt_dec 0 b), (Rlt_dec 0 (- b)), (Rlt_dec b 0),
      (Rlt_dec (- b) 0); try ring; exfalso; lra.
Qed.

(** X17: negating every x-coordinate (the pose seen in a mirror) changes
    no joint angle, no height and no visibility score; the body line of a
    side keeps its confidence and has its angle negated, unless the line
    from shoulder to ankle points straight up, where the angle is kept. *)
Theorem X17_mirror (k : Keypoints) (s : Side) :
  calculateJointAngles (mirror k) = calculateJointAngles k
  /\ calculateBodyPositions (mirror k) = calculateBodyPositions k
  /\ calculateVisibility (mirror k) = calculateVisibility k
  /\ bl_confidence (calculateBodyLineForSide (mirror k) s)
     = bl_confidence (calculateBodyLineForSide k s)
  /\ (~ straightUp k s ->
      bl_angle (calculateBodyLineForSide (mirror k) s)
      = - bl_angle (calculateBodyLineForSide k s))
  /\ (straightUp k s ->
      bl_angle (calculateBodyLineForSide (mirror k) s)
      = bl_angle (calculateBodyLineForSide k s)).
Proof.
  split; [|split; [|split]].
  - unfold calculateJointAngles.
    now rewrite !knee_is_hip, !mirror_hip, !mirror_shoulder, !mirror_elbow,
      mirror_neck.
  - rewrite !positions_formula. reflexivity.
  - reflexivity.
  - unfold calculateBodyLineForSide. rewrite mirror_visible.
    destruct (negb (areKeypointsVisible _)).
    { repeat split; intros; cbn [bl_angle]; try reflexivity. ring. }
    cbn [bl_confidence bl_angle mirror x y confidence].
    set (ax := x (k (ankle_of s))). set (sx := x (k (shoulder_of s))).
    set (dy := y (k (ankle_of s)) - y (k (shoulder_of s))).
    replace (- ax - - sx) with (- (ax - sx)) by ring.
    split; [reflexivity|]. split.
    + intros Hup. rewrite atan2_mirror; [ring|].
      intros [H1 H2]. apply Hup. unfold straightUp. fold ax sx.
      unfold dy in H2. split; lra.
    + intros [H1 H2]. fold ax sx in H1. rewrite H1.
      replace (sx - sx) with 0 by ring. now rewrite Ropp_0.
Qed.

Lemma X17_witness :
  ~ straightUp tie_keypoints Left
  /\ bl_angle (calculateBodyLineForSide (mirror tie_keypoints) Left)
     = - bl_angle (calculateBodyLineForSide tie_keypoints Left).
Proof.
  assert (H : ~ straightUp tie_keypoints Left).
  { intros [H _]. simpl in H. lra. }
  split; [exact H|].
  destruct (X17_mirror tie_keypoints Left) as (_ & _ & _ & _ & Hn & _).
  exact (Hn H).
Defined.

(** ** The critical-points scores *)

(** X18: each critical-points score is the mean of two confidences, not a
    count: when both keypoints of the pair reach 0.6 the score is at least
    0.6, and a score of at least 0.6 guarantees only that one of the two
    does. *)
Theorem X18_critical_points (k : Keypoints) :
  let c := criticalPoints (calculateVisibility k) in
  let both a b := is_visible (k a) && is_visible (k b) in
  let one a b := is_visible (k a) || is_visible (k b) in
  (both left_shoulder right_shoulder = true -> 6 / 10 <= shoulders c)
  /\ (6 / 10 <= shoulders c -> one left_shoulder right_shoulder = true)
  /\ (both left_hip right_hip = true -> 6 / 10 <= hips c)
  /\ (6 / 10 <= hips c -> one left_hip right_hip = true)
  /\ (both left_ankle right_ankle = true -> 6 / 10 <= ankles c)
  /\ (6 / 10 <= ankles c -> one left_ankle right_ankle = true).
Proof.
  cbv zeta. unfold calculateVisibility; cbn [criticalPoints shoulders hips ankles].
  assert (B : forall p q : Keypoint,
            is_visible p && is_visible q = true ->
            6 / 10 <= (confidence p + confidence q) / 2).
  { intros p q H. apply andb_true_iff in H. destruct H as [Hp Hq].
    apply is_visible_true in Hp. apply is_visible_true in Hq. lra. }
  assert (O : forall p q : Keypoint,
            6 / 10 <= (confidence p + confidence q) / 2 ->
            is_visible p || is_visible q = true).
  { intros p q H. destruct (is_visible p) eqn:Hp; [reflexivity|].
    destruct (is_visible q) eqn:Hq; [reflexivity|].
    apply is_visible_false in Hp. apply is_visible_false in Hq. lra. }
  repeat split; intros H; (now apply B) || (now apply O).
Qed.

(** Shoulders at confidence 1 and 0.2: the score is 0.6 with the right
    shoulder out of sight. *)
Lemma X18_witness :
  6 / 10 <= shoulders (criticalPoints (calculateVisibility lopsided_keypoints))
  /\ is_visible (lopsided_keypoints right_shoulder) = false
  /\ is_visible (lopsided_keypoints left_shoulder)
     || is_visible (lopsided_keypoints right_shoulder) = true.
Proof.
  assert (H : 6 / 10 <= shoulders (criticalPoints
                                     (calculateVisibility lopsided_keypoints))).
  { unfold calculateVisibility; cbn [criticalPoints shoulders].
    unfold lopsided_keypoints, kp; cbn [confidence]. lra. }
  split; [exact H|]. split.
  - apply is_visible_false. simpl. lra.
  - destruct (X18_critical_points lopsided_keypoints) as (_ & Hone & _).
    exact (Hone H).
Defined.
